(** * Datadog MCP server: the span adapters and the startup configuration

    A shallow embedding of [src/index.ts] (credential and site resolution,
    start-up validation) and of the three span adapters
    [src/tools/getTrace.ts], [src/tools/searchSpans.ts] and
    [src/tools/aggregateSpans.ts], with the properties the specification
    states about them. *)

From Stdlib Require Import ZArith QArith String List Bool Lia.
From stdpp Require Import gmap strings.

Local Open Scope string_scope.
Local Open Scope list_scope.

(** ** JavaScript values used by the adapters *)

(** A JS [number].  The adapters never compute with numbers: they test them
    for truthiness, compare them with an array length or a status constant,
    and hand them to [Array.prototype.slice].  All of these are exact on the
    mathematical value, so a finite number is represented by the rational it
    denotes (both zeros are [Num 0]). *)
Inductive number : Type :=
| NaN
| Infinity (negative : bool)
| Num (q : Q).

Definition of_Z (z : Z) : number := Num (inject_Z z).
Definition of_nat (n : nat) : number := of_Z (Z.of_nat n).

(** ToBoolean on a number: [0], [-0] and [NaN] are falsy. *)
Definition truthy_number (x : number) : bool :=
  match x with
  | NaN => false
  | Infinity _ => true
  | Num q => negb (Qeq_bool q 0)
  end.

(** ToBoolean on a string: only the empty string is falsy. *)
Definition truthy_string (s : string) : bool :=
  match s with
  | EmptyString => false
  | String _ _ => true
  end.

(** ToBoolean on an optional property: [undefined] is falsy. *)
Definition truthy_opt {A : Type} (truthy : A -> bool) (x : option A) : bool :=
  match x with
  | None => false
  | Some a => truthy a
  end.

(** [x === k] for a numeric literal [k]. *)
Definition strict_eq_number (x : number) (k : Z) : bool :=
  match x with
  | Num q => Qeq_bool q (inject_Z k)
  | _ => false
  end.

(** [len > x], the array length [len] on the left. *)
Definition length_gt (len : nat) (x : number) : bool :=
  match x with
  | NaN => false
  | Infinity negative => negative
  | Num q => negb (Qle_bool (inject_Z (Z.of_nat len)) q)
  end.

(** ToIntegerOrInfinity followed by the clamping [slice] applies to its
    [end] argument, for an array of [len] elements: a negative end counts
    from the back. *)
Definition relative_end (len : nat) (x : number) : nat :=
  match x with
  | NaN => 0
  | Infinity negative => if negative then 0 else len
  | Num q =>
      let i := Z.quot (Qnum q) (Zpos (Qden q)) in
      if (i <? 0)%Z then Z.to_nat (Z.max (Z.of_nat len + i) 0)
      else Nat.min (Z.to_nat i) len
  end.

(** [arr.slice(0, end)]. *)
Definition slice0 {A : Type} (arr : list A) (end_ : number) : list A :=
  firstn (relative_end (length arr) end_) arr.

(** [url.substring(n)]: the code units from index [n] to the end. *)
Definition substring_from (n : nat) (s : string) : string :=
  String.substring n (String.length s - n) s.

(** [haystack.includes(needle)]. *)
Fixpoint includes (needle haystack : string) : bool :=
  String.prefix needle haystack ||
  match haystack with
  | EmptyString => false
  | String _ rest => includes needle rest
  end.

(** ** [src/index.ts]: site normalization *)

(** [const cleanupUrl = (url) => url.startsWith("https://") ? url.substring(8) : url] *)
Definition cleanupUrl (url : string) : string :=
  if String.prefix "https://" url then substring_from 8 url else url.

(** ** The backend client library

    [@datadog/datadog-api-client] is an external collaborator.  Its types
    and its calls are the fields of a class, so that every statement below
    holds for every behaviour of the library and of the backend behind it. *)

(** What a [catch] clause receives.  The adapters read one property of it,
    [status]; [new Error(message)] has none. *)
Record JsError : Type := mkJsError {
  message : string;
  status : option number
}.

Definition new_Error (msg : string) : JsError :=
  {| message := msg; status := None |}.

(** [v2.SpansListRequest], as far as the adapters fill it in. *)
Record SpansQueryFilter : Type := {
  filter_query : option string;
  filter_from : option string;
  filter_to : option string
}.

Record SpansListRequestPage : Type := {
  page_limit : option number;
  page_cursor : option string
}.

Record SpansListRequestAttributes : Type := {
  attr_filter : option SpansQueryFilter;
  attr_sort : option string;
  attr_page : option SpansListRequestPage
}.

Record SpansListRequestData : Type := {
  data_attributes : SpansListRequestAttributes;
  data_type : string
}.

Record SpansListRequest : Type := {
  body_data : SpansListRequestData
}.

(** [v2.SpansAggregateRequest]. *)
Record SpansCompute : Type := {
  compute_aggregation : string;
  compute_metric : option string;
  compute_type : option string
}.

Record SpansAggregateSort : Type := {
  sort_aggregation : option string;
  sort_order : option string;
  sort_metric : option string;
  sort_type : option string
}.

Record SpansGroupBy : Type := {
  groupBy_facet : string;
  groupBy_limit : option number;
  groupBy_sort : option SpansAggregateSort
}.

Record SpansAggregateOptions : Type := {
  options_timezone : option string
}.

Record SpansAggregateRequestAttributes : Type := {
  agg_filter : option SpansQueryFilter;
  agg_compute : option (list SpansCompute);
  agg_groupBy : option (list SpansGroupBy);
  agg_options : option SpansAggregateOptions
}.

Record SpansAggregateRequestData : Type := {
  agg_data_attributes : SpansAggregateRequestAttributes;
  agg_data_type : string
}.

Record SpansAggregateRequest : Type := {
  agg_body_data : SpansAggregateRequestData
}.

(** [v2.SpansListResponse]. *)
Record SpansListResponse (Span Links Meta : Type) : Type := {
  resp_data : option (list Span);
  resp_links : option Links;
  resp_meta : option Meta
}.

Arguments resp_data {Span Links Meta} _.
Arguments resp_links {Span Links Meta} _.
Arguments resp_meta {Span Links Meta} _.

Class DatadogClient : Type := {
  (** [client.Configuration], the handle an adapter keeps *)
  Configuration : Type;
  (** [v2.Span], and the [links] and [meta] parts of a list response *)
  Span : Type;
  Links : Type;
  Meta : Type;
  (** [v2.SpansAggregateResponse] *)
  SpansAggregateResponse : Type;
  (** [client.createConfiguration({authMethods: {apiKeyAuth, appKeyAuth}})];
      the library may also read [process.env], its first argument here *)
  createConfiguration :
    gmap string string -> option string -> option string -> Configuration;
  (** [configuration.setServerVariables({site})] *)
  setServerVariables : Configuration -> string -> Configuration;
  (** [new v2.SpansApi(configuration).listSpans({body})]: the promise
      resolves with a response or rejects with an error *)
  listSpans :
    option Configuration -> SpansListRequest ->
    JsError + SpansListResponse Span Links Meta;
  (** [new v2.SpansApi(configuration).aggregateSpans({body})] *)
  aggregateSpans :
    option Configuration -> SpansAggregateRequest ->
    JsError + SpansAggregateResponse
}.

(** ** The process state and the effects of the adapters *)

(** One argument of a [console.error] call. *)
Inductive LogArg : Type :=
| Text (s : string)
| Object (e : JsError).

(** One invocation of the backend, with the handle it was made through. *)
Inductive BackendCall `{DatadogClient} : Type :=
| ListSpans (configuration : option Configuration) (body : SpansListRequest)
| AggregateSpans (configuration : option Configuration) (body : SpansAggregateRequest).

(** [process.env], the module-level [let configuration] of each adapter
    (unbound until [initialize] runs), and the two observable traces: the
    lines written by [console.error] and the backend invocations, both in
    chronological order. *)
Record World `{DatadogClient} : Type := {
  process_env : gmap string string;
  getTrace_configuration : option Configuration;
  searchSpans_configuration : option Configuration;
  aggregateSpans_configuration : option Configuration;
  console_error_log : list (list LogArg);
  backend_calls : list BackendCall
}.

(** How a function body completes. *)
Inductive Completion (A : Type) : Type :=
| Return (a : A)
| Throw (e : JsError).

Arguments Return {A} a.
Arguments Throw {A} e.

Module Eff.
Section Eff.
Context `{DatadogClient}.

(** A computation over the process state that returns or throws. *)
Definition t (A : Type) : Type := World -> Completion A * World.

Definition ret {A : Type} (a : A) : t A := fun w => (Return a, w).

Definition bind {A B : Type} (m : t A) (k : A -> t B) : t B :=
  fun w =>
    match m w with
    | (Return a, w') => k a w'
    | (Throw e, w') => (Throw e, w')
    end.

Definition throw {A : Type} (e : JsError) : t A := fun w => (Throw e, w).

(** [try { body } catch (error) { handler }] *)
Definition try_catch {A : Type} (body : t A) (handler : JsError -> t A) : t A :=
  fun w =>
    match body w with
    | (Return a, w') => (Return a, w')
    | (Throw e, w') => handler e w'
    end.

(** [if (c) { m }] with nothing after a completed [m]. *)
Definition when (c : bool) (m : t unit) : t unit :=
  if c then m else ret tt.

Definition read {A : Type} (f : World -> A) : t A := fun w => (Return (f w), w).

Definition console_error (args : list LogArg) : t unit :=
  fun w =>
    (Return tt,
     {| process_env := process_env w;
        getTrace_configuration := getTrace_configuration w;
        searchSpans_configuration := searchSpans_configuration w;
        aggregateSpans_configuration := aggregateSpans_configuration w;
        console_error_log := console_error_log w ++ [args];
        backend_calls := backend_calls w |}).

Definition record_call (c : BackendCall) (w : World) : World :=
  {| process_env := process_env w;
     getTrace_configuration := getTrace_configuration w;
     searchSpans_configuration := searchSpans_configuration w;
     aggregateSpans_configuration := aggregateSpans_configuration w;
     console_error_log := console_error_log w;
     backend_calls := backend_calls w ++ [c] |}.

(** [await apiInstance.listSpans({body})] *)
Definition await_listSpans (configuration : option Configuration)
    (body : SpansListRequest) : t (SpansListResponse Span Links Meta) :=
  fun w =>
    let w' := record_call (ListSpans configuration body) w in
    match listSpans configuration body with
    | inr response => (Return response, w')
    | inl error => (Throw error, w')
    end.

(** [await apiInstance.aggregateSpans({body})] *)
Definition await_aggregateSpans (configuration : option Configuration)
    (body : SpansAggregateRequest) : t SpansAggregateResponse :=
  fun w =>
    let w' := record_call (AggregateSpans configuration body) w in
    match aggregateSpans configuration body with
    | inr response => (Return response, w')
    | inl error => (Throw error, w')
    end.
End Eff.
End Eff.

Declare Scope eff_scope.
Delimit Scope eff_scope with eff.
Notation "x <- m ;; k" := (Eff.bind m (fun x => k))
  (at level 100, m at next level, right associativity) : eff_scope.
Notation "m ;; k" := (Eff.bind m (fun _ => k))
  (at level 100, right associativity) : eff_scope.

Local Open Scope eff_scope.

(** ** What the three span adapters share *)

(** [!process.env.DD_API_KEY || !process.env.DD_APP_KEY] *)
Definition credentials_missing (env : gmap string string) : bool :=
  negb (truthy_opt truthy_string (env !! "DD_API_KEY"))
  || negb (truthy_opt truthy_string (env !! "DD_APP_KEY")).

(** [error.status === k] *)
Definition status_is (error : JsError) (k : Z) : bool :=
  match status error with
  | Some x => strict_eq_number x k
  | None => false
  end.

(** [limit || fallback] on an optional number. *)
Definition number_or (x : option number) (fallback : number) : number :=
  match x with
  | Some n => if truthy_number n then n else fallback
  | None => fallback
  end.

(** [len || fallback] on an array length. *)
Definition length_or (len : option nat) (fallback : nat) : nat :=
  match len with
  | Some (S n) => S n
  | Some O => fallback
  | None => fallback
  end.

Definition credentials_required : string :=
  "API Key and App Key are required".

Definition authorization_failed_log : string :=
  "Authorization failed (403 Forbidden): Check that your API key and Application key are valid and have sufficient permissions to access APM data. Required scope: apm_read".

Definition authorization_failed : string :=
  "Datadog API authorization failed. Please verify your API and Application keys have the 'apm_read' scope.".

Definition rate_limit_log : string :=
  "Rate limit exceeded (429): Spans API is limited to 300 requests per hour.".

Definition rate_limit_exceeded : string :=
  "Rate limit exceeded. Spans API allows 300 requests per hour.".

(** The body of [initialize], the same in the three adapters up to the
    module variable it assigns: the handle it builds from [process.env]. *)
Definition build_configuration `{DatadogClient} (env : gmap string string) : Configuration :=
  let configuration :=
    createConfiguration env (env !! "DD_API_KEY") (env !! "DD_APP_KEY") in
  match env !! "DD_SITE" with
  | Some site =>
      if truthy_string site then setServerVariables configuration site
      else configuration
  | None => configuration
  end.

(** [filter ? {query: filter.query, from: filter.from, to: filter.to} : undefined] *)
Definition copy_filter (filter : option SpansQueryFilter) : option SpansQueryFilter :=
  match filter with
  | Some f =>
      Some {| filter_query := filter_query f;
              filter_from := filter_from f;
              filter_to := filter_to f |}
  | None => None
  end.

(** ** [src/tools/getTrace.ts] *)

Module getTrace.
Section getTrace.
Context `{DatadogClient}.

Record Params : Type := {
  traceId : string;
  limit : option number
}.

Record Result : Type := {
  result_traceId : string;
  result_spans : list Span;
  result_meta : option Meta;
  result_spanCount : nat
}.

Definition initialize : Eff.t unit :=
  fun w =>
    (Return tt,
     {| process_env := process_env w;
        getTrace_configuration := Some (build_configuration (process_env w));
        searchSpans_configuration := searchSpans_configuration w;
        aggregateSpans_configuration := aggregateSpans_configuration w;
        console_error_log := console_error_log w;
        backend_calls := backend_calls w |}).

(** The request body built from [traceId] and [limit]. *)
Definition request_body (traceId : string) (limit : option number) : SpansListRequest :=
  {| body_data :=
       {| data_attributes :=
            {| attr_filter :=
                 Some {| filter_query := Some ("trace_id:" +:+ traceId);
                         filter_from := Some "now-15m";
                         filter_to := Some "now" |};
               attr_sort := Some "timestamp";
               attr_page :=
                 Some {| page_limit := Some (number_or limit (of_Z 1000));
                         page_cursor := None |} |};
          data_type := "search_request" |} |}.

Definition not_found (traceId : string) : string :=
  "Trace with ID " +:+ traceId +:+
  " not found. Make sure the trace exists and is within the time window (last 15 minutes by default).".

(** The [try] block of [execute]. *)
Definition try_block (params : Params) : Eff.t Result :=
  let traceId := traceId params in
  let limit := limit params in
  env <- Eff.read process_env ;;
  Eff.when (credentials_missing env)
    (Eff.throw (new_Error credentials_required)) ;;
  Eff.when (negb (truthy_string traceId))
    (Eff.throw (new_Error "traceId is required")) ;;
  configuration <- Eff.read getTrace_configuration ;;
  let body := request_body traceId limit in
  response <- Eff.await_listSpans configuration body ;;
  Eff.ret
    {| result_traceId := traceId;
       result_spans :=
         match resp_data response with Some d => d | None => [] end;
       result_meta := resp_meta response;
       result_spanCount :=
         length_or (option_map (@length Span) (resp_data response)) 0 |}.

(** The [catch (error)] block of [execute]. *)
Definition catch_block (params : Params) (error : JsError) : Eff.t Result :=
  if status_is error 403 then
    Eff.console_error [Text authorization_failed_log] ;;
    Eff.throw (new_Error authorization_failed)
  else if status_is error 429 then
    Eff.console_error [Text rate_limit_log] ;;
    Eff.throw (new_Error rate_limit_exceeded)
  else if status_is error 404 then
    Eff.throw (new_Error (not_found (traceId params)))
  else
    Eff.console_error [Text "Error fetching trace:"; Object error] ;;
    Eff.throw error.

Definition execute (params : Params) : Eff.t Result :=
  Eff.try_catch (try_block params) (catch_block params).
End getTrace.
End getTrace.

(** ** [src/tools/searchSpans.ts] *)

Module searchSpans.
Section searchSpans.
Context `{DatadogClient}.

Record Params : Type := {
  filter : option SpansQueryFilter;
  sort : option string;
  page : option SpansListRequestPage;
  limit : option number
}.

Definition initialize : Eff.t unit :=
  fun w =>
    (Return tt,
     {| process_env := process_env w;
        getTrace_configuration := getTrace_configuration w;
        searchSpans_configuration := Some (build_configuration (process_env w));
        aggregateSpans_configuration := aggregateSpans_configuration w;
        console_error_log := console_error_log w;
        backend_calls := backend_calls w |}).

Definition request_body (params : Params) : SpansListRequest :=
  {| body_data :=
       {| data_attributes :=
            {| attr_filter := copy_filter (filter params);
               attr_sort := sort params;
               attr_page := page params |};
          data_type := "search_request" |} |}.

(** [limit && response.data && response.data.length > limit] and the
    two [return] statements it selects. *)
Definition apply_limit (limit : option number)
    (response : SpansListResponse Span Links Meta) : SpansListResponse Span Links Meta :=
  match limit, resp_data response with
  | Some l, Some d =>
      if truthy_number l && length_gt (length d) l then
        {| resp_data := Some (slice0 d l);
           resp_links := resp_links response;
           resp_meta := resp_meta response |}
      else response
  | _, _ => response
  end.

(** The [try] block of [execute]. *)
Definition try_block (params : Params) : Eff.t (SpansListResponse Span Links Meta) :=
  let limit := limit params in
  env <- Eff.read process_env ;;
  Eff.when (credentials_missing env)
    (Eff.throw (new_Error credentials_required)) ;;
  configuration <- Eff.read searchSpans_configuration ;;
  let body := request_body params in
  response <- Eff.await_listSpans configuration body ;;
  Eff.ret (apply_limit limit response).

(** The [catch (error)] block of [execute]. *)
Definition catch_block (error : JsError) : Eff.t (SpansListResponse Span Links Meta) :=
  if status_is error 403 then
    Eff.console_error [Text authorization_failed_log] ;;
    Eff.throw (new_Error authorization_failed)
  else if status_is error 429 then
    Eff.console_error [Text rate_limit_log] ;;
    Eff.throw (new_Error rate_limit_exceeded)
  else
    Eff.console_error [Text "Error searching spans:"; Object error] ;;
    Eff.throw error.

Definition execute (params : Params) : Eff.t (SpansListResponse Span Links Meta) :=
  Eff.try_catch (try_block params) catch_block.
End searchSpans.
End searchSpans.

(** ** [src/tools/aggregateSpans.ts] *)

Module aggregateSpans.
Section aggregateSpans.
Context `{DatadogClient}.

(** The parameter object has the shape of the request it is copied into:
    [compute] entries are [{aggregation, metric?, type?}] and [groupBy]
    entries [{facet, limit?, sort?: {aggregation?, order?, metric?, type?}}]. *)
Record Params : Type := {
  filter : option SpansQueryFilter;
  compute : option (list SpansCompute);
  groupBy : option (list SpansGroupBy);
  options : option SpansAggregateOptions
}.

Definition initialize : Eff.t unit :=
  fun w =>
    (Return tt,
     {| process_env := process_env w;
        getTrace_configuration := getTrace_configuration w;
        searchSpans_configuration := searchSpans_configuration w;
        aggregateSpans_configuration := Some (build_configuration (process_env w));
        console_error_log := console_error_log w;
        backend_calls := backend_calls w |}).

(** [compute?.map(c => ({aggregation, metric, type}))] *)
Definition computeSpecs (compute : option (list SpansCompute)) : option (list SpansCompute) :=
  option_map
    (List.map (fun c =>
       {| compute_aggregation := compute_aggregation c;
          compute_metric := compute_metric c;
          compute_type := compute_type c |}))
    compute.

(** [if (g.sort.f) sortObj.f = g.sort.f]: a falsy field is left out. *)
Definition set_if_truthy (field : option string) : option string :=
  if truthy_opt truthy_string field then field else None.

(** [groupBy?.map(g => ...)] *)
Definition groupBySpecs (groupBy : option (list SpansGroupBy)) : option (list SpansGroupBy) :=
  option_map
    (List.map (fun g =>
       {| groupBy_facet := groupBy_facet g;
          groupBy_limit := groupBy_limit g;
          groupBy_sort :=
            match groupBy_sort g with
            | Some s =>
                Some {| sort_aggregation := set_if_truthy (sort_aggregation s);
                        sort_order := set_if_truthy (sort_order s);
                        sort_metric := set_if_truthy (sort_metric s);
                        sort_type := set_if_truthy (sort_type s) |}
            | None => None
            end |}))
    groupBy.

Definition request_body (params : Params) : SpansAggregateRequest :=
  {| agg_body_data :=
       {| agg_data_attributes :=
            {| agg_filter := copy_filter (filter params);
               agg_compute := computeSpecs (compute params);
               agg_groupBy := groupBySpecs (groupBy params);
               agg_options := options params |};
          agg_data_type := "aggregate_request" |} |}.

(** The [try] block of [execute]. *)
Definition try_block (params : Params) : Eff.t SpansAggregateResponse :=
  env <- Eff.read process_env ;;
  Eff.when (credentials_missing env)
    (Eff.throw (new_Error credentials_required)) ;;
  configuration <- Eff.read aggregateSpans_configuration ;;
  let body := request_body params in
  response <- Eff.await_aggregateSpans configuration body ;;
  Eff.ret response.

(** The [catch (error)] block of [execute]. *)
Definition catch_block (error : JsError) : Eff.t SpansAggregateResponse :=
  if status_is error 403 then
    Eff.console_error [Text authorization_failed_log] ;;
    Eff.throw (new_Error authorization_failed)
  else if status_is error 429 then
    Eff.console_error [Text rate_limit_log] ;;
    Eff.throw (new_Error rate_limit_exceeded)
  else
    Eff.console_error [Text "Error aggregating spans:"; Object error] ;;
    Eff.throw error.

Definition execute (params : Params) : Eff.t SpansAggregateResponse :=
  Eff.try_catch (try_block params) catch_block.
End aggregateSpans.
End aggregateSpans.

(** ** The adapters whose modules are not under [src/] *)

(** The ten adapters [index.ts] imports (lines 10 to 19) and initialises
    (lines 71 to 80) besides the three span adapters. *)
Inductive OtherAdapter : Type :=
| getMonitors
| getMonitor
| getDashboards
| getDashboard
| getMetrics
| getMetricMetadata
| getEvents
| getIncidents
| searchLogs
| aggregateLogs.

Module adapter.
Section adapter.
Context `{DatadogClient}.

(** Modelled from the spec: the capability-specific parts of an adapter
    whose module is missing from [src/], as section 4.2 ("Tool Adapter,
    generic contract, instantiated per capability") lists them: the
    parameter object, the required fields [execute] verifies, the request
    it constructs, the one backend call it makes, the normalization of
    the result, and the errors its translation surfaces (for 403 always,
    for 429 where the capability has a quota and "otherwise passed
    through", for 404 in trace retrieval only). *)
Record Capability : Type := {
  Params : Type;
  Request : Type;
  Response : Type;
  Result : Type;
  required_field_error : Params -> option JsError;
  request : Params -> Request;
  invoke : option Configuration -> Request -> JsError + Response;
  normalize : Params -> Response -> Result;
  authorization_error : JsError;
  rate_limit_error : option JsError;
  not_found_error : option (Params -> JsError)
}.

(** Modelled from the spec: what such an adapter reads and writes, its
    module is missing from [src/]: the process configuration, its one
    module-level handle ("the only stateful entity"), the diagnostic log
    and the backend invocations made through it. *)
Record State (cap : Capability) : Type := {
  env : gmap string string;
  handle : option Configuration;
  logged : list (list LogArg);
  invocations : list (option Configuration * Request cap)
}.

#[local] Arguments env {cap} _.
#[local] Arguments handle {cap} _.
#[local] Arguments logged {cap} _.
#[local] Arguments invocations {cap} _.

(** Modelled from the spec: [initialize()] of an adapter missing from
    [src/]: it "constructs a backend client handle ... using the resolved
    credentials and site; has no return value; side effect is binding the
    module-level handle used by [execute]".  The handle is built as the
    three span adapters build theirs. *)
Definition initialize {cap : Capability} (s : State cap) : State cap :=
  {| env := env s;
     handle := Some (build_configuration (env s));
     logged := logged s;
     invocations := invocations s |}.

(** Modelled from the spec: the error translation of an adapter missing
    from [src/], "by backend HTTP status": 403 is surfaced as the
    authorization error and the original error is logged; 429 is surfaced
    as the rate-limit error where there is one; 404 as the not-found
    error in trace retrieval only; on any other status "the original
    backend error is logged and re-thrown unchanged". *)
Definition translate {cap : Capability} (params : Params cap) (error : JsError)
    (s : State cap) : Completion (Result cap) * State cap :=
  let log_original :=
    {| env := env s;
       handle := handle s;
       logged := logged s ++ [[Object error]];
       invocations := invocations s |} in
  if status_is error 403 then (Throw (authorization_error cap), log_original)
  else if status_is error 429 then
    match rate_limit_error cap with
    | Some surfaced => (Throw surfaced, s)
    | None => (Throw error, log_original)
    end
  else if status_is error 404 then
    match not_found_error cap with
    | Some surfaced => (Throw (surfaced params), s)
    | None => (Throw error, log_original)
    end
  else (Throw error, log_original).

(** Modelled from the spec: [execute(params)] of an adapter missing from
    [src/].  "Validation order: (1) verify both credentials are present;
    (2) verify capability-specific required fields are present and
    non-empty", then request construction, "exactly one backend call per
    [execute] invocation", result normalization and error translation. *)
Definition execute {cap : Capability} (params : Params cap) (s : State cap)
    : Completion (Result cap) * State cap :=
  if credentials_missing (env s) then
    (Throw (new_Error credentials_required), s)
  else
    match required_field_error cap params with
    | Some error => (Throw error, s)
    | None =>
        let s' :=
          {| env := env s;
             handle := handle s;
             logged := logged s;
             invocations := invocations s ++ [(handle s, request cap params)] |} in
        match invoke cap (handle s) (request cap params) with
        | inr response => (Return (normalize cap params response), s')
        | inl error => translate params error s'
        end
    end.
End adapter.

Arguments env {H cap} _.
Arguments handle {H cap} _.
Arguments logged {H cap} _.
Arguments invocations {H cap} _.
End adapter.

(** ** [src/index.ts]: start-up *)

Module index.
Section index.
Context `{DatadogClient}.

(** How the top-level script ends: [process.exit(code)], an uncaught
    exception, or the server connected with its tools registered. *)
Inductive Started : Type :=
| Exited (code : Z)
| Uncaught (e : JsError)
| Serving (tools : list string).

(** A value of [minimist(process.argv.slice(2))], which is typed [any]:
    [--name=text] gives a string, [--name=12] a number, a bare [--name]
    the boolean [true], a repeated or dotted option an array or an object.
    A number and an object carry the string [String c text] that
    [String(value)] converts them to; it is never empty (an array built by
    [minimist] has at least two elements, an object converts to
    ["[object Object]"]). *)
Inductive ArgValue : Type :=
| ArgString (s : string)
| ArgNumber (n : number) (c : Ascii.ascii) (text : string)
| ArgBoolean (b : bool)
| ArgObject (c : Ascii.ascii) (text : string).

(** ToBoolean on such a value. *)
Definition truthy_arg (v : ArgValue) : bool :=
  match v with
  | ArgString s => truthy_string s
  | ArgNumber n _ _ => truthy_number n
  | ArgBoolean b => b
  | ArgObject _ _ => true
  end.

(** [String(value)], [undefined] included. *)
Definition to_string (v : option ArgValue) : string :=
  match v with
  | Some (ArgString s) => s
  | Some (ArgNumber _ c text) => String c text
  | Some (ArgBoolean true) => "true"
  | Some (ArgBoolean false) => "false"
  | Some (ArgObject c text) => String c text
  | None => "undefined"
  end.

(** [a || b]. *)
Definition or_else (a b : option ArgValue) : option ArgValue :=
  if truthy_opt truthy_arg a then a else b.

(** [process.env.NAME], read. *)
Definition env_value (env : gmap string string) (name : string) : option ArgValue :=
  ArgString <$> env !! name.

(** [process.env.NAME = value]: Node stores the string conversion of the
    value, so [undefined] is stored as the string ["undefined"]. *)
Definition env_assign (name : string) (value : option ArgValue)
    (env : gmap string string) : gmap string string :=
  <[name := to_string value]> env.

(** [cleanupUrl(url)] on a value typed [any]: only a string has a
    [startsWith] method, every other value throws a [TypeError]. *)
Definition call_cleanupUrl (url : option ArgValue) : JsError + string :=
  match url with
  | Some (ArgString s) => inr (cleanupUrl s)
  | Some _ => inl (new_Error "url.startsWith is not a function")
  | None =>
      inl (new_Error "Cannot read properties of undefined (reading 'startsWith')")
  end.

(** [const DD_API_KEY = argv.apiKey || process.env.DD_API_KEY] *)
Definition DD_API_KEY (argv : gmap string ArgValue) (env : gmap string string)
    : option ArgValue :=
  or_else (argv !! "apiKey") (env_value env "DD_API_KEY").

(** [const DD_APP_KEY = argv.appKey || process.env.DD_APP_KEY] *)
Definition DD_APP_KEY (argv : gmap string ArgValue) (env : gmap string string)
    : option ArgValue :=
  or_else (argv !! "appKey") (env_value env "DD_APP_KEY").

(** [const DD_SITE = argv.site || process.env.DD_SITE || "datadoghq.com"] *)
Definition DD_SITE (argv : gmap string ArgValue) (env : gmap string string)
    : option ArgValue :=
  or_else (or_else (argv !! "site") (env_value env "DD_SITE"))
    (Some (ArgString "datadoghq.com")).

(** [const DD_LOGS_SITE = argv.logsSite || process.env.DD_LOGS_SITE || DD_SITE] *)
Definition DD_LOGS_SITE (argv : gmap string ArgValue) (env : gmap string string)
    : option ArgValue :=
  or_else (or_else (argv !! "logsSite") (env_value env "DD_LOGS_SITE"))
    (DD_SITE argv env).

(** [const DD_METRICS_SITE =
      argv.metricsSite || process.env.DD_METRICS_SITE || DD_SITE] *)
Definition DD_METRICS_SITE (argv : gmap string ArgValue) (env : gmap string string)
    : option ArgValue :=
  or_else (or_else (argv !! "metricsSite") (env_value env "DD_METRICS_SITE"))
    (DD_SITE argv env).

Definition with_env (env : gmap string string) (w : World) : World :=
  {| process_env := env;
     getTrace_configuration := getTrace_configuration w;
     searchSpans_configuration := searchSpans_configuration w;
     aggregateSpans_configuration := aggregateSpans_configuration w;
     console_error_log := console_error_log w;
     backend_calls := backend_calls w |}.

(** The names passed to [server.tool], in order. *)
Definition tool_names : list string :=
  [ "get-monitors"; "get-monitor"; "get-dashboards"; "get-dashboard";
    "get-metrics"; "get-metric-metadata"; "get-events"; "get-incidents";
    "search-logs"; "aggregate-logs"; "search-spans"; "aggregate-spans";
    "get-trace" ].

(** The three [console.error] lines and [process.exit(1)] of a failed
    validation. *)
Definition exit_missing (required command_line : string) : World -> Started * World :=
  fun w =>
    match
      (Eff.console_error [Text required] ;;
       Eff.console_error [Text "Please provide it via command line argument or .env file."] ;;
       Eff.console_error [Text command_line]) w
    with
    | (_, w') => (Exited 1, w')
    end.

(** Lines 54 to 83 and the registrations: the validation of the two keys,
    then [initialize] of the adapters and the serving state. *)
Definition validate_and_serve (api_key app_key : option ArgValue)
    : World -> Started * World :=
  fun w =>
    if negb (truthy_opt truthy_arg api_key) then
      exit_missing "Error: DD_API_KEY is required."
        " Command line: --apiKey=your_api_key" w
    else if negb (truthy_opt truthy_arg app_key) then
      exit_missing "Error: DD_APP_KEY is required."
        " Command line: --appKey=your_app_key" w
    else
      match
        (searchSpans.initialize ;;
         aggregateSpans.initialize ;;
         getTrace.initialize) w
      with
      | (Return _, w') => (Serving tool_names, w')
      | (Throw e, w') => (Uncaught e, w')
      end.

(** The script, from argument parsing to [server.connect].  [argv] is
    the result of [minimist]; [dotenv] is the content of the [.env] file,
    which [dotenv.config()] adds to [process.env] without replacing what
    is set.  The five assignments to [process.env] of lines 48 to 52 run
    in order, and each [cleanupUrl] call may throw before the next one.
    The ten adapters whose modules are not part of this development bind
    their own handles before the span adapters and are left out. *)
Definition main (argv : gmap string ArgValue) (dotenv : gmap string string)
    : World -> Started * World :=
  fun w =>
    let env := process_env w ∪ dotenv in
    let api_key := DD_API_KEY argv env in
    let app_key := DD_APP_KEY argv env in
    let env1 := env_assign "DD_APP_KEY" app_key (env_assign "DD_API_KEY" api_key env) in
    match call_cleanupUrl (DD_SITE argv env) with
    | inl error => (Uncaught error, with_env env1 w)
    | inr site =>
        let env2 := env_assign "DD_SITE" (Some (ArgString site)) env1 in
        match call_cleanupUrl (DD_LOGS_SITE argv env) with
        | inl error => (Uncaught error, with_env env2 w)
        | inr logs_site =>
            let env3 := env_assign "DD_LOGS_SITE" (Some (ArgString logs_site)) env2 in
            match call_cleanupUrl (DD_METRICS_SITE argv env) with
            | inl error => (Uncaught error, with_env env3 w)
            | inr metrics_site =>
                let env4 :=
                  env_assign "DD_METRICS_SITE" (Some (ArgString metrics_site)) env3 in
                validate_and_serve api_key app_key (with_env env4 w)
            end
        end
    end.
End index.
End index.

(** ** [src/index.ts]: the span tools *)

Module tools.
Section tools.
Context `{DatadogClient}.

(** [JSON.stringify], on whatever an adapter returns. *)
Variable JSON_stringify : forall A : Type, A -> string.

(** What a tool callback returns: [{content: [{type, text}]}]. *)
Record Content : Type := {
  content_type : string;
  content_text : string
}.

Record CallToolResult : Type := {
  content : list Content
}.

(** [{content: [{type: "text", text: JSON.stringify(result)}]}] *)
Definition text_result {A : Type} (result : A) : CallToolResult :=
  {| content :=
       [{| content_type := "text"; content_text := JSON_stringify A result |}] |}.

(** The argument object a callback receives for the schema
    [{filter: ..., sort: ..., page: ..., limit: z.number().default(100)}]:
    an omitted [limit] is filled in with 100. *)
Definition search_spans_args (given : searchSpans.Params) : searchSpans.Params :=
  {| searchSpans.filter := searchSpans.filter given;
     searchSpans.sort := searchSpans.sort given;
     searchSpans.page := searchSpans.page given;
     searchSpans.limit := Some (default (of_Z 100) (searchSpans.limit given)) |}.

(** The same for [{traceId: z.string(), limit: z.number().default(1000)}]. *)
Definition get_trace_args (given : getTrace.Params) : getTrace.Params :=
  {| getTrace.traceId := getTrace.traceId given;
     getTrace.limit := Some (default (of_Z 1000) (getTrace.limit given)) |}.

(** The callback of [server.tool("search-spans", ...)]. *)
Definition search_spans (args : searchSpans.Params) : Eff.t CallToolResult :=
  result <- searchSpans.execute args ;;
  Eff.ret (text_result result).

(** The callback of [server.tool("aggregate-spans", ...)]. *)
Definition aggregate_spans (args : aggregateSpans.Params) : Eff.t CallToolResult :=
  result <- aggregateSpans.execute args ;;
  Eff.ret (text_result result).

(** The callback of [server.tool("get-trace", ...)]. *)
Definition get_trace (args : getTrace.Params) : Eff.t CallToolResult :=
  result <- getTrace.execute args ;;
  Eff.ret (text_result result).
End tools.
End tools.

(** ** A test double for the client library *)

(** A client whose handle records the credentials and the site it was built
    with, whose spans are numbered, and whose backend gives the same reply
    to every request. *)
Definition test_client
    (list_reply : JsError + SpansListResponse nat string string)
    (aggregate_reply : JsError + nat) : DatadogClient :=
  {| Configuration := option string * option string * option string;
     Span := nat;
     Links := string;
     Meta := string;
     SpansAggregateResponse := nat;
     createConfiguration := fun _ api app => (api, app, None);
     setServerVariables := fun c site => (fst (fst c), snd (fst c), Some site);
     listSpans := fun _ _ => list_reply;
     aggregateSpans := fun _ _ => aggregate_reply |}.

(** Five spans, more than the limits tried below. *)
Definition five_spans : SpansListResponse nat string string :=
  {| resp_data := Some [1; 2; 3; 4; 5]%nat;
     resp_links := None;
     resp_meta := Some "elapsed" |}.

(** A backend failure with the given status. *)
Definition failure (code : Z) : JsError :=
  {| message := "backend failure"; status := Some (of_Z code) |}.

(** A process with the given environment in which nothing has run yet:
    no handle is bound, nothing is logged, no backend call is made. *)
Definition fresh_world `{DatadogClient} (env : gmap string string) : World :=
  {| process_env := env;
     getTrace_configuration := None;
     searchSpans_configuration := None;
     aggregateSpans_configuration := None;
     console_error_log := [];
     backend_calls := [] |}.

Definition with_credentials : gmap string string :=
  <["DD_API_KEY" := "api-key"]> (<["DD_APP_KEY" := "app-key"]> ∅).

(** A backend that answers, and one that fails with a given status. *)
Definition answering_client : DatadogClient :=
  test_client (inr five_spans) (inr 7%nat).

Definition failing_client (code : Z) : DatadogClient :=
  test_client (inl (failure code)) (inl (failure code)).

(** The state before any call, with and without the credentials. *)
Definition credentialed (client : DatadogClient) : @World client :=
  @fresh_world client with_credentials.

Definition uncredentialed (client : DatadogClient) : @World client :=
  @fresh_world client ∅.

(** The call of the specification's example: [traceId = "abc123"]. *)
Definition abc123 (limit : option number) : @getTrace.Params :=
  {| getTrace.traceId := "abc123"; getTrace.limit := limit |}.

(** A search with nothing but a [limit]. *)
Definition search_with_limit (limit : option number) : @searchSpans.Params :=
  {| searchSpans.filter := None;
     searchSpans.sort := None;
     searchSpans.page := None;
     searchSpans.limit := limit |}.

Definition aggregate_nothing : @aggregateSpans.Params :=
  {| aggregateSpans.filter := None;
     aggregateSpans.compute := None;
     aggregateSpans.groupBy := None;
     aggregateSpans.options := None |}.

(** A response of 150 spans, and a backend that answers with it. *)
Definition many_spans : SpansListResponse nat string string :=
  {| resp_data := Some (seq 1 150);
     resp_links := None;
     resp_meta := Some "elapsed" |}.

Definition busy_client : DatadogClient :=
  test_client (inr many_spans) (inr 7%nat).

(** A command line with both keys and a site written with its scheme. *)
Definition cli_args : gmap string index.ArgValue :=
  <["apiKey" := index.ArgString "api-key"]>
    (<["appKey" := index.ArgString "app-key"]>
       (<["site" := index.ArgString "https://datadoghq.eu"]> ∅)).

(** A command line with a bare [--site] and no key, and one with
    [--site=123] and no key. *)
Definition bare_site : gmap string index.ArgValue :=
  <["site" := index.ArgBoolean true]> ∅.

Definition numeric_site : gmap string index.ArgValue :=
  <["site" := index.ArgNumber (of_Z 123) (Ascii.ascii_of_nat 49) "23"]> ∅.

(** A serialization that tells nothing apart. *)
Definition no_stringify : forall A : Type, A -> string := fun _ _ => "{}".

(** A stand-in for the capability-specific parts of [getMonitors], and a
    state of it with no credentials and nothing done yet. *)
Definition monitors_capability (client : DatadogClient) : @adapter.Capability client :=
  {| adapter.Params := unit;
     adapter.Request := string;
     adapter.Response := nat;
     adapter.Result := nat;
     adapter.required_field_error := fun _ => None;
     adapter.request := fun _ => "monitors";
     adapter.invoke := fun _ _ => inr 3%nat;
     adapter.normalize := fun _ response => response;
     adapter.authorization_error := new_Error "monitors_read";
     adapter.rate_limit_error := None;
     adapter.not_found_error := None |}.

Definition monitors_state (client : DatadogClient) (env : gmap string string)
    : @adapter.State client (monitors_capability client) :=
  {| adapter.env := env;
     adapter.handle := None;
     adapter.logged := [];
     adapter.invocations := [] |}.

(** ** Notions used by the statements *)

(** A command-line value [cleanupUrl] can take or that [||] skips: a
    string, or a falsy value (absent, [0], [NaN], [false]), after which
    the environment or a string default is used. *)
Definition string_or_falsy (v : option index.ArgValue) : Prop :=
  truthy_opt index.truthy_arg v = false \/ exists s, v = Some (index.ArgString s).


(** The part of the state that only [initialize] and the start-up script
    write: [process.env] and the three handles. *)
Definition same_bindings `{DatadogClient} (w w' : World) : Prop :=
  process_env w' = process_env w
  /\ getTrace_configuration w' = getTrace_configuration w
  /\ searchSpans_configuration w' = searchSpans_configuration w
  /\ aggregateSpans_configuration w' = aggregateSpans_configuration w.

(** How [aggregateSpans] forwards an optional sort field: as given, unless
    it is the empty string, which is left out. *)
Definition forwarded_unless_empty (given sent : option string) : Prop :=
  (given <> Some "" /\ sent = given) \/ (given = Some "" /\ sent = None).

Definition sort_forwarded (given sent : SpansAggregateSort) : Prop :=
  forwarded_unless_empty (sort_aggregation given) (sort_aggregation sent)
  /\ forwarded_unless_empty (sort_order given) (sort_order sent)
  /\ forwarded_unless_empty (sort_metric given) (sort_metric sent)
  /\ forwarded_unless_empty (sort_type given) (sort_type sent).

Definition group_forwarded (given sent : SpansGroupBy) : Prop :=
  groupBy_facet sent = groupBy_facet given
  /\ groupBy_limit sent = groupBy_limit given
  /\ option_Forall2 sort_forwarded (groupBy_sort given) (groupBy_sort sent).

(** * Properties *)

(** ** Strings *)

Lemma substring_whole (s : string) : String.substring 0 (String.length s) s = s.
Proof. induction s as [|c s IH]; simpl; [reflexivity | now rewrite IH]. Qed.

Lemma prefix_refl_app (p rest : string) : String.prefix p (p +:+ rest) = true.
Proof.
  induction p as [|c p IH]; simpl; [now destruct rest|].
  destruct (Ascii.ascii_dec c c); [exact IH | congruence].
Qed.

Lemma includes_prefix (needle haystack : string) :
  String.prefix needle haystack = true -> includes needle haystack = true.
Proof. intros Hp. destruct haystack; cbn [includes]; rewrite Hp; reflexivity. Qed.

Lemma includes_app (needle before after : string) :
  includes needle (before +:+ needle +:+ after) = true.
Proof.
  induction before as [|c before IH].
  - change ("" +:+ needle +:+ after) with (needle +:+ after).
    apply includes_prefix, prefix_refl_app.
  - change (String c before +:+ needle +:+ after)
      with (String c (before +:+ needle +:+ after)).
    cbn [includes]. rewrite IH. apply orb_true_r.
Qed.

(** ** Site normalization *)

Lemma cleanupUrl_prefixed (rest : string) : cleanupUrl ("https://" +:+ rest) = rest.
Proof.
  unfold cleanupUrl. rewrite prefix_refl_app.
  unfold substring_from. simpl. rewrite Nat.sub_0_r. apply substring_whole.
Qed.

Lemma cleanupUrl_unprefixed (url : string) :
  String.prefix "https://" url = false -> cleanupUrl url = url.
Proof. intros Hp. unfold cleanupUrl. now rewrite Hp. Qed.

(** C6, as stated, fails: stripping is not idempotent on a value that
    carries the prefix twice; the second application strips again. *)
Lemma cleanupUrl_not_idempotent :
  cleanupUrl "https://https://datadoghq.com" = "https://datadoghq.com"
  /\ cleanupUrl (cleanupUrl "https://https://datadoghq.com") = "datadoghq.com"
  /\ ~ (forall url, cleanupUrl (cleanupUrl url) = cleanupUrl url).
Proof.
  split; [reflexivity|]. split; [reflexivity|].
  intros Hidem. specialize (Hidem "https://https://datadoghq.com").
  vm_compute in Hidem. discriminate Hidem.
Qed.

(** C6, amended: [cleanupUrl] removes exactly one leading ["https://"] from
    a value that begins with it, leaves any other value unchanged, and a
    second application is a no-op whenever the first result no longer
    begins with the prefix. *)
Theorem cleanupUrl_strips_one_prefix (url : string) :
  (forall rest, url = "https://" +:+ rest -> cleanupUrl url = rest)
  /\ (String.prefix "https://" url = false -> cleanupUrl url = url)
  /\ (String.prefix "https://" (cleanupUrl url) = false ->
      cleanupUrl (cleanupUrl url) = cleanupUrl url).
Proof.
  split; [|split].
  - intros rest ->. apply cleanupUrl_prefixed.
  - apply cleanupUrl_unprefixed.
  - apply cleanupUrl_unprefixed.
Qed.

Lemma cleanupUrl_strips_one_prefix_witness :
  cleanupUrl "https://datadoghq.eu" = "datadoghq.eu"
  /\ cleanupUrl "datadoghq.eu" = "datadoghq.eu"
  /\ cleanupUrl (cleanupUrl "https://datadoghq.eu") = cleanupUrl "https://datadoghq.eu".
Proof.
  split; [|split].
  - apply (proj1 (cleanupUrl_strips_one_prefix "https://datadoghq.eu") "datadoghq.eu").
    reflexivity.
  - apply (proj1 (proj2 (cleanupUrl_strips_one_prefix "datadoghq.eu"))).
    reflexivity.
  - apply (proj2 (proj2 (cleanupUrl_strips_one_prefix "https://datadoghq.eu"))).
    reflexivity.
Defined.

(** ** Numbers *)

Lemma truthy_number_of_nat (n : nat) : truthy_number (of_nat n) = negb (n =? 0)%nat.
Proof.
  unfold truthy_number, of_nat, of_Z, Qeq_bool, inject_Z; simpl.
  rewrite Z.mul_1_r. destruct n; reflexivity.
Qed.

Lemma length_gt_of_nat (len n : nat) : length_gt len (of_nat n) = (n <? len)%nat.
Proof.
  unfold length_gt, of_nat, of_Z, Qle_bool, inject_Z; simpl.
  rewrite !Z.mul_1_r.
  destruct (Z.leb_spec (Z.of_nat len) (Z.of_nat n));
    destruct (Nat.ltb_spec n len); simpl; try reflexivity; lia.
Qed.

Lemma relative_end_of_nat (len n : nat) : relative_end len (of_nat n) = Nat.min n len.
Proof.
  unfold relative_end, of_nat, of_Z, inject_Z; simpl.
  rewrite Z.quot_1_r.
  destruct (Z.ltb_spec (Z.of_nat n) 0); [lia|].
  now rewrite Nat2Z.id.
Qed.

Lemma slice0_of_nat {A : Type} (arr : list A) (n : nat) :
  (n < length arr)%nat -> slice0 arr (of_nat n) = firstn n arr.
Proof.
  intros Hlt. unfold slice0. rewrite relative_end_of_nat.
  f_equal. lia.
Qed.

(** ** The adapters, step by step *)

Ltac run_eff :=
  unfold Eff.try_catch, Eff.bind, Eff.when, Eff.read, Eff.throw, Eff.ret,
    Eff.console_error, Eff.await_listSpans, Eff.await_aggregateSpans;
  cbn beta iota.

Section Adapters.
Context `{DatadogClient}.

Lemma absent_credentials_missing (env : gmap string string) :
  env !! "DD_API_KEY" = None \/ env !! "DD_APP_KEY" = None ->
  credentials_missing env = true.
Proof.
  unfold credentials_missing. intros [-> | ->]; simpl; [reflexivity|].
  apply orb_true_r.
Qed.

Lemma truthy_string_nonempty (s : string) : s <> "" -> truthy_string s = true.
Proof. destruct s; [congruence | reflexivity]. Qed.

(** *** get-trace *)

Lemma getTrace_try_credentials (params : getTrace.Params) (w : World) :
  credentials_missing (process_env w) = true ->
  getTrace.try_block params w = (Throw (new_Error credentials_required), w).
Proof. intros Hc. unfold getTrace.try_block. run_eff. now rewrite Hc. Qed.

Lemma getTrace_try_traceId (params : getTrace.Params) (w : World) :
  credentials_missing (process_env w) = false ->
  getTrace.traceId params = "" ->
  getTrace.try_block params w = (Throw (new_Error "traceId is required"), w).
Proof.
  intros Hc Ht. unfold getTrace.try_block. run_eff. now rewrite Hc, Ht.
Qed.

Lemma getTrace_try_call (params : getTrace.Params) (w : World) :
  credentials_missing (process_env w) = false ->
  getTrace.traceId params <> "" ->
  let configuration := getTrace_configuration w in
  let body := getTrace.request_body (getTrace.traceId params) (getTrace.limit params) in
  let w' := Eff.record_call (ListSpans configuration body) w in
  getTrace.try_block params w =
  match listSpans configuration body with
  | inr response =>
      (Return
         {| getTrace.result_traceId := getTrace.traceId params;
            getTrace.result_spans :=
              match resp_data response with Some d => d | None => [] end;
            getTrace.result_meta := resp_meta response;
            getTrace.result_spanCount :=
              length_or (option_map (@length Span) (resp_data response)) 0 |},
       w')
  | inl error => (Throw error, w')
  end.
Proof.
  intros Hc Ht. unfold getTrace.try_block. run_eff.
  rewrite Hc, (truthy_string_nonempty _ Ht). cbn.
  now destruct (listSpans _ _).
Qed.

Lemma getTrace_catch_throws (params : getTrace.Params) (e : JsError) (w : World) :
  exists e' w',
    getTrace.catch_block params e w = (Throw e', w')
    /\ backend_calls w' = backend_calls w.
Proof.
  unfold getTrace.catch_block.
  destruct (status_is e 403); [|destruct (status_is e 429); [|destruct (status_is e 404)]];
    run_eff; eauto.
Qed.

Lemma status_is_new_Error (msg : string) (k : Z) : status_is (new_Error msg) k = false.
Proof. reflexivity. Qed.

Lemma length_or_length {A : Type} (d : list A) :
  length_or (Some (length d)) 0 = length d.
Proof. now destruct d. Qed.

(** Past both validations, [execute] makes one backend call, whether
    the backend then answers or fails. *)
Lemma getTrace_calls (params : getTrace.Params) (w : World) :
  credentials_missing (process_env w) = false ->
  getTrace.traceId params <> "" ->
  backend_calls (snd (getTrace.execute params w)) =
    backend_calls w ++
    [ListSpans (getTrace_configuration w)
       (getTrace.request_body (getTrace.traceId params) (getTrace.limit params))].
Proof.
  intros Hc Ht. unfold getTrace.execute, Eff.try_catch.
  rewrite (getTrace_try_call params w Hc Ht). cbv zeta.
  destruct (listSpans _ _) as [e|response]; [|reflexivity].
  destruct (getTrace_catch_throws params e
              (Eff.record_call
                 (ListSpans (getTrace_configuration w)
                    (getTrace.request_body (getTrace.traceId params)
                       (getTrace.limit params))) w))
    as (e' & w' & -> & Hcalls).
  exact Hcalls.
Qed.

(** C1, amended: with both credentials set and a non-empty [traceId],
    [getTrace.execute] issues exactly one backend request, whose filter
    is [trace_id:<traceId>] over [now-15m .. now], sorted by
    [timestamp]; its page limit is 1000 when no limit is given and the
    given limit when that limit is truthy (neither zero nor NaN). *)
Theorem getTrace_request (params : getTrace.Params) (w : World) :
  credentials_missing (process_env w) = false ->
  getTrace.traceId params <> "" ->
  exists (body : SpansListRequest) (page_limit : number),
    backend_calls (snd (getTrace.execute params w)) =
      backend_calls w ++ [ListSpans (getTrace_configuration w) body]
    /\ body =
         {| body_data :=
              {| data_attributes :=
                   {| attr_filter :=
                        Some {| filter_query :=
                                  Some ("trace_id:" +:+ getTrace.traceId params);
                                filter_from := Some "now-15m";
                                filter_to := Some "now" |};
                      attr_sort := Some "timestamp";
                      attr_page :=
                        Some {| page_limit := Some page_limit;
                                page_cursor := None |} |};
                 data_type := "search_request" |} |}
    /\ (getTrace.limit params = None -> page_limit = of_Z 1000)
    /\ (forall l, getTrace.limit params = Some l ->
                  truthy_number l = true -> page_limit = l).
Proof.
  intros Hc Ht.
  exists (getTrace.request_body (getTrace.traceId params) (getTrace.limit params)),
         (number_or (getTrace.limit params) (of_Z 1000)).
  split; [|split; [reflexivity|split]].
  - now apply getTrace_calls.
  - now intros ->.
  - intros l -> Hl. unfold number_or. now rewrite Hl.
Qed.

(** C3: whenever [getTrace.execute] returns, the payload echoes the input
    [traceId], its spans are the backend's list (empty when the backend
    sent none) and its [spanCount] is the length of that list. *)
Theorem getTrace_payload (params : getTrace.Params) (w w' : World)
    (r : getTrace.Result) :
  getTrace.execute params w = (Return r, w') ->
  getTrace.result_traceId r = getTrace.traceId params
  /\ exists response,
       listSpans (getTrace_configuration w)
         (getTrace.request_body (getTrace.traceId params) (getTrace.limit params))
         = inr response
       /\ getTrace.result_spans r = default [] (resp_data response)
       /\ getTrace.result_spanCount r = length (default [] (resp_data response))
       /\ (forall d, resp_data response = Some d ->
                     getTrace.result_spanCount r = length d).
Proof.
  unfold getTrace.execute, Eff.try_catch. intros Hrun.
  destruct (credentials_missing (process_env w)) eqn:Hc.
  { rewrite (getTrace_try_credentials params w Hc) in Hrun.
    destruct (getTrace_catch_throws params (new_Error credentials_required) w)
      as (e' & w1 & Heq & _).
    rewrite Heq in Hrun. discriminate Hrun. }
  destruct (string_dec (getTrace.traceId params) "") as [Ht|Ht].
  { rewrite (getTrace_try_traceId params w Hc Ht) in Hrun.
    destruct (getTrace_catch_throws params (new_Error "traceId is required") w)
      as (e' & w1 & Heq & _).
    rewrite Heq in Hrun. discriminate Hrun. }
  rewrite (getTrace_try_call params w Hc Ht) in Hrun. cbv zeta in Hrun.
  destruct (listSpans _ _) as [e|response].
  { match type of Hrun with
    | getTrace.catch_block _ _ ?w1 = _ =>
        destruct (getTrace_catch_throws params e w1) as (e' & w2 & Heq & _)
    end.
    rewrite Heq in Hrun. discriminate Hrun. }
  injection Hrun as <- <-. split; [reflexivity|].
  exists response.
  cbn [getTrace.result_spans getTrace.result_spanCount].
  destruct (resp_data response) as [d|]; cbn [option_map default].
  - rewrite length_or_length. repeat split; try reflexivity.
    now intros d' [= <-].
  - repeat split; try reflexivity. intros d' [=].
Qed.

Lemma getTrace_catch_new_Error (params : getTrace.Params) (msg : string) (w : World) :
  exists w',
    getTrace.catch_block params (new_Error msg) w = (Throw (new_Error msg), w')
    /\ backend_calls w' = backend_calls w.
Proof. unfold getTrace.catch_block. cbn. run_eff. eauto. Qed.

(** C8: [getTrace.execute] checks the credentials first and the trace
    identifier second.  A missing credential gives the credential error
    whatever the [traceId]; with both credentials set, an empty [traceId]
    gives ['traceId is required'].  In both cases no backend call is made. *)
Theorem getTrace_validation_order (params : getTrace.Params) (w : World) :
  (credentials_missing (process_env w) = true ->
   exists w',
     getTrace.execute params w = (Throw (new_Error credentials_required), w')
     /\ backend_calls w' = backend_calls w)
  /\ (credentials_missing (process_env w) = false ->
      getTrace.traceId params = "" ->
      exists w',
        getTrace.execute params w = (Throw (new_Error "traceId is required"), w')
        /\ backend_calls w' = backend_calls w).
Proof.
  split.
  - intros Hc. unfold getTrace.execute, Eff.try_catch.
    rewrite (getTrace_try_credentials params w Hc).
    apply getTrace_catch_new_Error.
  - intros Hc Ht. unfold getTrace.execute, Eff.try_catch.
    rewrite (getTrace_try_traceId params w Hc Ht).
    apply getTrace_catch_new_Error.
Qed.

(** *** search-spans and aggregate-spans *)

Lemma searchSpans_try_credentials (params : searchSpans.Params) (w : World) :
  credentials_missing (process_env w) = true ->
  searchSpans.try_block params w = (Throw (new_Error credentials_required), w).
Proof. intros Hc. unfold searchSpans.try_block. run_eff. now rewrite Hc. Qed.

Lemma searchSpans_try_call (params : searchSpans.Params) (w : World) :
  credentials_missing (process_env w) = false ->
  let configuration := searchSpans_configuration w in
  let body := searchSpans.request_body params in
  let w' := Eff.record_call (ListSpans configuration body) w in
  searchSpans.try_block params w =
  match listSpans configuration body with
  | inr response =>
      (Return (searchSpans.apply_limit (searchSpans.limit params) response), w')
  | inl error => (Throw error, w')
  end.
Proof.
  intros Hc. unfold searchSpans.try_block. run_eff. rewrite Hc. cbn.
  now destruct (listSpans _ _).
Qed.

Lemma searchSpans_catch_new_Error (msg : string) (w : World) :
  exists w',
    searchSpans.catch_block (new_Error msg) w = (Throw (new_Error msg), w')
    /\ backend_calls w' = backend_calls w.
Proof. unfold searchSpans.catch_block. cbn. run_eff. eauto. Qed.

Lemma aggregateSpans_try_credentials (params : aggregateSpans.Params) (w : World) :
  credentials_missing (process_env w) = true ->
  aggregateSpans.try_block params w = (Throw (new_Error credentials_required), w).
Proof. intros Hc. unfold aggregateSpans.try_block. run_eff. now rewrite Hc. Qed.

Lemma aggregateSpans_try_call (params : aggregateSpans.Params) (w : World) :
  credentials_missing (process_env w) = false ->
  let configuration := aggregateSpans_configuration w in
  let body := aggregateSpans.request_body params in
  let w' := Eff.record_call (AggregateSpans configuration body) w in
  aggregateSpans.try_block params w =
  match aggregateSpans configuration body with
  | inr response => (Return response, w')
  | inl error => (Throw error, w')
  end.
Proof.
  intros Hc. unfold aggregateSpans.try_block. run_eff. rewrite Hc. cbn.
  now destruct (aggregateSpans _ _).
Qed.

Lemma aggregateSpans_catch_new_Error (msg : string) (w : World) :
  exists w',
    aggregateSpans.catch_block (new_Error msg) w = (Throw (new_Error msg), w')
    /\ backend_calls w' = backend_calls w.
Proof. unfold aggregateSpans.catch_block. cbn. run_eff. eauto. Qed.

(** C5: [execute] called while a credential is missing from
    [process.env] (absent, as in [absent_credentials_missing], or empty)
    throws ['API Key and App Key are required'] and makes no backend
    invocation: in the three span adapters, and in each of the ten other
    adapters, whatever its capability-specific parts. *)
Theorem execute_requires_credentials :
  (forall w : World,
      credentials_missing (process_env w) = true ->
      (forall params, exists w',
          getTrace.execute params w = (Throw (new_Error credentials_required), w')
          /\ backend_calls w' = backend_calls w)
      /\ (forall params, exists w',
          searchSpans.execute params w = (Throw (new_Error credentials_required), w')
          /\ backend_calls w' = backend_calls w)
      /\ (forall params, exists w',
          aggregateSpans.execute params w
            = (Throw (new_Error credentials_required), w')
          /\ backend_calls w' = backend_calls w))
  /\ (forall (which : OtherAdapter) (cap : OtherAdapter -> adapter.Capability)
             (params : adapter.Params (cap which)) (s : adapter.State (cap which)),
      credentials_missing (adapter.env s) = true ->
      exists s',
        adapter.execute params s = (Throw (new_Error credentials_required), s')
        /\ adapter.invocations s' = adapter.invocations s).
Proof.
  split.
  - intros w Hc. split; [|split]; intros params.
    + unfold getTrace.execute, Eff.try_catch.
      rewrite (getTrace_try_credentials params w Hc).
      apply getTrace_catch_new_Error.
    + unfold searchSpans.execute, Eff.try_catch.
      rewrite (searchSpans_try_credentials params w Hc).
      apply searchSpans_catch_new_Error.
    + unfold aggregateSpans.execute, Eff.try_catch.
      rewrite (aggregateSpans_try_credentials params w Hc).
      apply aggregateSpans_catch_new_Error.
  - intros which cap params s Hc. exists s.
    unfold adapter.execute. rewrite Hc. split; reflexivity.
Qed.

(** C2, amended: for a positive whole-number [limit] and a backend
    response with more than [limit] items, [searchSpans.execute] returns
    the response with its item list cut to the first [limit] items, in
    order; that list has exactly [limit] items. *)
Theorem searchSpans_truncates (params : searchSpans.Params) (w : World)
    (n : nat) (response : SpansListResponse Span Links Meta) (items : list Span) :
  credentials_missing (process_env w) = false ->
  searchSpans.limit params = Some (of_nat n) ->
  (0 < n)%nat ->
  listSpans (searchSpans_configuration w) (searchSpans.request_body params)
    = inr response ->
  resp_data response = Some items ->
  (n < length items)%nat ->
  fst (searchSpans.execute params w) =
    Return {| resp_data := Some (firstn n items);
              resp_links := resp_links response;
              resp_meta := resp_meta response |}
  /\ length (firstn n items) = n.
Proof.
  intros Hc Hl Hn Hreply Hdata Hlen.
  split; [|apply firstn_length_le; lia].
  unfold searchSpans.execute, Eff.try_catch.
  rewrite (searchSpans_try_call params w Hc). cbv zeta.
  rewrite Hreply, Hl. cbn [fst]. f_equal.
  unfold searchSpans.apply_limit. rewrite Hdata.
  rewrite truthy_number_of_nat, length_gt_of_nat.
  destruct (Nat.eqb_spec n 0); [lia|].
  destruct (Nat.ltb_spec n (length items)); [|lia].
  cbn [negb andb]. now rewrite slice0_of_nat.
Qed.

(** C10: a [limit] of 0 behaves like no limit.  [getTrace.execute] asks
    the backend for a page of 1000, and [searchSpans.execute] returns
    the backend response as it is, however long its item list. *)
Theorem limit_zero_is_no_limit :
  (forall (params : getTrace.Params) (w : World),
      credentials_missing (process_env w) = false ->
      getTrace.traceId params <> "" ->
      getTrace.limit params = Some (of_Z 0) ->
      backend_calls (snd (getTrace.execute params w)) =
        backend_calls w ++
        [ListSpans (getTrace_configuration w)
           (getTrace.request_body (getTrace.traceId params) None)]
      /\ attr_page (data_attributes (body_data
           (getTrace.request_body (getTrace.traceId params) (getTrace.limit params))))
         = Some {| page_limit := Some (of_Z 1000); page_cursor := None |})
  /\ (forall (params : searchSpans.Params) (w : World)
             (response : SpansListResponse Span Links Meta),
      credentials_missing (process_env w) = false ->
      searchSpans.limit params = Some (of_Z 0) ->
      listSpans (searchSpans_configuration w) (searchSpans.request_body params)
        = inr response ->
      fst (searchSpans.execute params w) = Return response).
Proof.
  split.
  - intros params w Hc Ht Hl.
    rewrite (getTrace_calls params w Hc Ht), Hl. split; reflexivity.
  - intros params w response Hc Hl Hreply.
    unfold searchSpans.execute, Eff.try_catch.
    rewrite (searchSpans_try_call params w Hc). cbv zeta.
    rewrite Hreply, Hl. cbn [fst]. f_equal.
    unfold searchSpans.apply_limit. now destruct (resp_data response).
Qed.

(** *** Error translation *)

Lemma status_is_unique (e : JsError) (a b : Z) :
  status_is e a = true -> a <> b -> status_is e b = false.
Proof.
  unfold status_is. destruct (status e) as [[| |q]|]; simpl; try discriminate.
  intros Ha Hab. apply Qeq_bool_iff in Ha.
  destruct (Qeq_bool q (inject_Z b)) eqn:Hb; [|reflexivity].
  apply Qeq_bool_iff in Hb. rewrite Ha in Hb.
  destruct (Hab (proj1 (inject_Z_injective a b) Hb)).
Qed.

Lemma includes_app_r (needle before after : string) :
  includes needle after = true -> includes needle (before +:+ after) = true.
Proof.
  intros Hin. induction before as [|c before IH]; [exact Hin|].
  change (String c before +:+ after) with (String c (before +:+ after)).
  cbn [includes]. rewrite IH. apply orb_true_r.
Qed.

Lemma not_found_names_trace (traceId : string) :
  includes traceId (getTrace.not_found traceId) = true
  /\ includes "last 15 minutes" (getTrace.not_found traceId) = true.
Proof.
  split.
  - apply includes_app.
  - unfold getTrace.not_found. do 2 apply includes_app_r. reflexivity.
Qed.

(** C4: when the backend call of a span adapter fails with error [e],
    [execute] throws
    - for status 403, a new error whose message names ['apm_read'];
    - for status 429, a new error whose message names
      ['300 requests per hour'];
    - in get-trace only, for status 404, a new error whose message
      contains the trace identifier and the default window
      ['last 15 minutes'];
    - for every other [e] (in search-spans and aggregate-spans that
      includes status 404), [e] itself. *)
Theorem span_error_translation :
  (includes "apm_read" authorization_failed = true
   /\ includes "300 requests per hour" rate_limit_exceeded = true
   /\ forall traceId,
        includes traceId (getTrace.not_found traceId) = true
        /\ includes "last 15 minutes" (getTrace.not_found traceId) = true)
  /\ (forall (params : getTrace.Params) (w : World) (e : JsError),
      credentials_missing (process_env w) = false ->
      getTrace.traceId params <> "" ->
      listSpans (getTrace_configuration w)
        (getTrace.request_body (getTrace.traceId params) (getTrace.limit params))
        = inl e ->
      let thrown := fst (getTrace.execute params w) in
      (status_is e 403 = true -> thrown = Throw (new_Error authorization_failed))
      /\ (status_is e 429 = true -> thrown = Throw (new_Error rate_limit_exceeded))
      /\ (status_is e 404 = true ->
          thrown = Throw (new_Error (getTrace.not_found (getTrace.traceId params))))
      /\ (status_is e 403 = false -> status_is e 429 = false ->
          status_is e 404 = false -> thrown = Throw e))
  /\ (forall (params : searchSpans.Params) (w : World) (e : JsError),
      credentials_missing (process_env w) = false ->
      listSpans (searchSpans_configuration w) (searchSpans.request_body params)
        = inl e ->
      let thrown := fst (searchSpans.execute params w) in
      (status_is e 403 = true -> thrown = Throw (new_Error authorization_failed))
      /\ (status_is e 429 = true -> thrown = Throw (new_Error rate_limit_exceeded))
      /\ (status_is e 403 = false -> status_is e 429 = false -> thrown = Throw e))
  /\ (forall (params : aggregateSpans.Params) (w : World) (e : JsError),
      credentials_missing (process_env w) = false ->
      aggregateSpans (aggregateSpans_configuration w)
        (aggregateSpans.request_body params) = inl e ->
      let thrown := fst (aggregateSpans.execute params w) in
      (status_is e 403 = true -> thrown = Throw (new_Error authorization_failed))
      /\ (status_is e 429 = true -> thrown = Throw (new_Error rate_limit_exceeded))
      /\ (status_is e 403 = false -> status_is e 429 = false -> thrown = Throw e)).
Proof.
  split; [|split; [|split]].
  - split; [reflexivity|]. split; [reflexivity|]. apply not_found_names_trace.
  - intros params w e Hc Ht Hreply thrown. subst thrown.
    unfold getTrace.execute, Eff.try_catch.
    rewrite (getTrace_try_call params w Hc Ht). cbv zeta. rewrite Hreply.
    unfold getTrace.catch_block.
    repeat split.
    + intros ->. reflexivity.
    + intros H429.
      rewrite (status_is_unique e 429 403 H429), H429 by lia. reflexivity.
    + intros H404.
      rewrite (status_is_unique e 404 403 H404),
              (status_is_unique e 404 429 H404), H404 by lia.
      reflexivity.
    + intros -> -> ->. reflexivity.
  - intros params w e Hc Hreply thrown. subst thrown.
    unfold searchSpans.execute, Eff.try_catch.
    rewrite (searchSpans_try_call params w Hc). cbv zeta. rewrite Hreply.
    unfold searchSpans.catch_block.
    repeat split.
    + intros ->. reflexivity.
    + intros H429.
      rewrite (status_is_unique e 429 403 H429), H429 by lia. reflexivity.
    + intros -> ->. reflexivity.
  - intros params w e Hc Hreply thrown. subst thrown.
    unfold aggregateSpans.execute, Eff.try_catch.
    rewrite (aggregateSpans_try_call params w Hc). cbv zeta. rewrite Hreply.
    unfold aggregateSpans.catch_block.
    repeat split.
    + intros ->. reflexivity.
    + intros H429.
      rewrite (status_is_unique e 429 403 H429), H429 by lia. reflexivity.
    + intros -> ->. reflexivity.
Qed.

(** *** Initialization *)

(** C9: running [initialize] a second time leaves the process exactly
    as the first run left it, so every later [execute] gives the same
    completion and the same final state for every parameter object and
    every backend: in the three span adapters, and in each of the ten
    other adapters, whatever its capability-specific parts. *)
Theorem initialize_twice :
  (forall w : World,
      let once_t := snd (getTrace.initialize w) in
      let twice_t := snd (getTrace.initialize once_t) in
      let once_s := snd (searchSpans.initialize w) in
      let twice_s := snd (searchSpans.initialize once_s) in
      let once_a := snd (aggregateSpans.initialize w) in
      let twice_a := snd (aggregateSpans.initialize once_a) in
      (twice_t = once_t
       /\ forall params,
           getTrace.execute params twice_t = getTrace.execute params once_t)
      /\ (twice_s = once_s
          /\ forall params,
              searchSpans.execute params twice_s = searchSpans.execute params once_s)
      /\ (twice_a = once_a
          /\ forall params,
              aggregateSpans.execute params twice_a
              = aggregateSpans.execute params once_a))
  /\ (forall (which : OtherAdapter) (cap : OtherAdapter -> adapter.Capability)
             (s : adapter.State (cap which)),
      let once := adapter.initialize s in
      let twice := adapter.initialize once in
      twice = once
      /\ forall params, adapter.execute params twice = adapter.execute params once).
Proof.
  split.
  - intros w. cbv zeta. repeat split; intros params; reflexivity.
  - intros which cap s. cbv zeta. split; [reflexivity|].
    intros params. reflexivity.
Qed.

(** *** Start-up *)

Lemma resolved_string (a : option index.ArgValue) (env : gmap string string)
    (name fallback : string) :
  string_or_falsy a ->
  exists s,
    index.or_else (index.or_else a (index.env_value env name))
      (Some (index.ArgString fallback)) = Some (index.ArgString s).
Proof.
  intros Ha. unfold index.or_else, index.env_value.
  assert (Henv : exists s,
    (if truthy_opt index.truthy_arg (index.ArgString <$> env !! name)
     then index.ArgString <$> env !! name
     else Some (index.ArgString fallback)) = Some (index.ArgString s)).
  { destruct (env !! name) as [x|]; cbn; [|eauto].
    destruct (truthy_string x); eauto. }
  destruct Ha as [Hfalsy | (s & ->)].
  - rewrite Hfalsy. exact Henv.
  - cbn. destruct (truthy_string s) eqn:Hs; [|exact Henv].
    cbn. rewrite Hs. eauto.
Qed.

Lemma main_strings (argv : gmap string index.ArgValue) (env : gmap string string) :
  string_or_falsy (argv !! "site") ->
  string_or_falsy (argv !! "logsSite") ->
  string_or_falsy (argv !! "metricsSite") ->
  exists site logs_site metrics_site,
    index.DD_SITE argv env = Some (index.ArgString site)
    /\ index.DD_LOGS_SITE argv env = Some (index.ArgString logs_site)
    /\ index.DD_METRICS_SITE argv env = Some (index.ArgString metrics_site).
Proof.
  intros Hsite Hlogs Hmetrics.
  destruct (resolved_string _ env "DD_SITE" "datadoghq.com" Hsite) as (site & Hs).
  destruct (resolved_string _ env "DD_LOGS_SITE" site Hlogs) as (logs & Hl).
  destruct (resolved_string _ env "DD_METRICS_SITE" site Hmetrics) as (metrics & Hm).
  exists site, logs, metrics.
  unfold index.DD_LOGS_SITE, index.DD_METRICS_SITE.
  change (index.or_else
            (index.or_else (argv !! "site") (index.env_value env "DD_SITE"))
            (Some (index.ArgString "datadoghq.com")))
    with (index.DD_SITE argv env) in Hs.
  rewrite Hs. auto.
Qed.

(** With three string sites, the script runs its five assignments and
    reaches the validation of the keys. *)
Lemma main_run (argv : gmap string index.ArgValue) (dotenv : gmap string string)
    (w : World) (site logs_site metrics_site : string) :
  let env := process_env w ∪ dotenv in
  index.DD_SITE argv env = Some (index.ArgString site) ->
  index.DD_LOGS_SITE argv env = Some (index.ArgString logs_site) ->
  index.DD_METRICS_SITE argv env = Some (index.ArgString metrics_site) ->
  index.main argv dotenv w =
  index.validate_and_serve (index.DD_API_KEY argv env) (index.DD_APP_KEY argv env)
    (index.with_env
       (<["DD_METRICS_SITE" := cleanupUrl metrics_site]>
          (<["DD_LOGS_SITE" := cleanupUrl logs_site]>
             (<["DD_SITE" := cleanupUrl site]>
                (<["DD_APP_KEY" := index.to_string (index.DD_APP_KEY argv env)]>
                   (<["DD_API_KEY" := index.to_string (index.DD_API_KEY argv env)]>
                      env)))))
       w).
Proof.
  cbv zeta. intros Hs Hl Hm. unfold index.main. now rewrite Hs, Hl, Hm.
Qed.

(** X21: when the three site options of the command line are strings or
    falsy, a missing API key or application key (resolved from the
    command line, the environment and the [.env] file) makes the script
    print three lines naming the first missing key and the option that
    supplies it, and exit with status 1: it initialises no adapter, calls
    no backend and never reaches the serving state. *)
Theorem startup_requires_credentials (argv : gmap string index.ArgValue)
    (dotenv : gmap string string) (w : World) :
  let env := process_env w ∪ dotenv in
  let api_key := index.DD_API_KEY argv env in
  let app_key := index.DD_APP_KEY argv env in
  string_or_falsy (argv !! "site") ->
  string_or_falsy (argv !! "logsSite") ->
  string_or_falsy (argv !! "metricsSite") ->
  truthy_opt index.truthy_arg api_key = false
  \/ truthy_opt index.truthy_arg app_key = false ->
  exists (required command_line : string) (w' : World),
    index.main argv dotenv w = (index.Exited 1, w')
    /\ console_error_log w' =
         console_error_log w ++
         [ [Text required];
           [Text "Please provide it via command line argument or .env file."];
           [Text command_line] ]
    /\ ((truthy_opt index.truthy_arg api_key = false
         /\ required = "Error: DD_API_KEY is required."
         /\ command_line = " Command line: --apiKey=your_api_key")
        \/ (truthy_opt index.truthy_arg api_key = true
            /\ truthy_opt index.truthy_arg app_key = false
            /\ required = "Error: DD_APP_KEY is required."
            /\ command_line = " Command line: --appKey=your_app_key"))
    /\ backend_calls w' = backend_calls w
    /\ getTrace_configuration w' = getTrace_configuration w
    /\ searchSpans_configuration w' = searchSpans_configuration w
    /\ aggregateSpans_configuration w' = aggregateSpans_configuration w.
Proof.
  cbv zeta. intros Hsite Hlogs Hmetrics Hmissing.
  destruct (main_strings argv (process_env w ∪ dotenv) Hsite Hlogs Hmetrics)
    as (site & logs & metrics & Hs & Hl & Hm).
  rewrite (main_run argv dotenv w site logs metrics Hs Hl Hm).
  unfold index.validate_and_serve.
  destruct (truthy_opt index.truthy_arg
              (index.DD_API_KEY argv (process_env w ∪ dotenv))) eqn:Hapi.
  - destruct Hmissing as [Habs | Happ]; [discriminate Habs|].
    rewrite Happ. cbn [negb].
    eexists _, _, _. split; [reflexivity|].
    cbn. rewrite <- !app_assoc. cbn.
    split; [reflexivity|]. split; [right; auto|]. auto.
  - cbn [negb].
    eexists _, _, _. split; [reflexivity|].
    cbn. rewrite <- !app_assoc. cbn.
    split; [reflexivity|]. split; [left; auto|]. auto.
Qed.
End Adapters.

(** ** The properties on concrete calls *)

Section Answering.
#[local] Existing Instance answering_client.

Example getTrace_abc123 :
  getTrace.execute (abc123 None) (credentialed answering_client)
  = (Return {| getTrace.result_traceId := "abc123";
               getTrace.result_spans := [1; 2; 3; 4; 5]%nat;
               getTrace.result_meta := Some "elapsed";
               getTrace.result_spanCount := 5 |},
     Eff.record_call (ListSpans None (getTrace.request_body "abc123" None))
       (credentialed answering_client)).
Proof. vm_compute. reflexivity. Qed.

(** C1 at [limit = 0]: a limit is supplied, and the request asks for a
    page of 1000, not of 0. *)
Lemma getTrace_limit_zero_not_forwarded :
  exists body,
    backend_calls (snd (getTrace.execute (abc123 (Some (of_Z 0))) (credentialed answering_client)))
      = [ListSpans None body]
    /\ attr_page (data_attributes (body_data body))
       = Some {| page_limit := Some (of_Z 1000); page_cursor := None |}
    /\ Some (of_Z 1000) <> getTrace.limit (abc123 (Some (of_Z 0))).
Proof.
  eexists. split; [vm_compute; reflexivity|].
  split; [reflexivity|]. vm_compute. discriminate.
Qed.

Lemma getTrace_request_witness :
  exists body page_limit,
    backend_calls (snd (getTrace.execute (abc123 None) (credentialed answering_client)))
      = [] ++ [ListSpans None body]
    /\ body =
         {| body_data :=
              {| data_attributes :=
                   {| attr_filter :=
                        Some {| filter_query := Some ("trace_id:" +:+ "abc123");
                                filter_from := Some "now-15m";
                                filter_to := Some "now" |};
                      attr_sort := Some "timestamp";
                      attr_page :=
                        Some {| page_limit := Some page_limit;
                                page_cursor := None |} |};
                 data_type := "search_request" |} |}
    /\ (@None number = None -> page_limit = of_Z 1000)
    /\ (forall l, None = Some l -> truthy_number l = true -> page_limit = l).
Proof.
  apply (getTrace_request (abc123 None) (credentialed answering_client));
    [reflexivity | discriminate].
Defined.

Lemma getTrace_payload_witness :
  exists r w',
    getTrace.execute (abc123 None) (credentialed answering_client) = (Return r, w')
    /\ getTrace.result_traceId r = "abc123"
    /\ getTrace.result_spanCount r = 5%nat.
Proof.
  eexists _, _. split; [exact getTrace_abc123|].
  destruct (getTrace_payload (abc123 None) _ _ _ getTrace_abc123)
    as (Hid & response & Hreply & _ & _ & Hcount).
  split; [exact Hid|].
  injection Hreply as <-. exact (Hcount _ eq_refl).
Defined.

Lemma getTrace_validation_order_witness :
  (exists w',
      getTrace.execute {| getTrace.traceId := ""; getTrace.limit := None |}
        (uncredentialed answering_client)
      = (Throw (new_Error credentials_required), w')
      /\ backend_calls w' = [])
  /\ (exists w',
      getTrace.execute {| getTrace.traceId := ""; getTrace.limit := None |}
        (credentialed answering_client)
      = (Throw (new_Error "traceId is required"), w')
      /\ backend_calls w' = []).
Proof.
  split.
  - apply (proj1 (getTrace_validation_order
                    {| getTrace.traceId := ""; getTrace.limit := None |}
                    (uncredentialed answering_client))).
    reflexivity.
  - apply (proj2 (getTrace_validation_order
                    {| getTrace.traceId := ""; getTrace.limit := None |}
                    (credentialed answering_client))); reflexivity.
Defined.

Lemma execute_requires_credentials_witness :
  (exists w',
      getTrace.execute (abc123 None) (uncredentialed answering_client)
      = (Throw (new_Error credentials_required), w')
      /\ backend_calls w' = [])
  /\ (exists w',
      searchSpans.execute (search_with_limit None) (uncredentialed answering_client)
      = (Throw (new_Error credentials_required), w')
      /\ backend_calls w' = [])
  /\ (exists w',
      aggregateSpans.execute aggregate_nothing (uncredentialed answering_client)
      = (Throw (new_Error credentials_required), w')
      /\ backend_calls w' = [])
  /\ (exists s',
      adapter.execute (cap := monitors_capability answering_client) tt
        (monitors_state answering_client ∅)
      = (Throw (new_Error credentials_required), s')
      /\ adapter.invocations s' = []).
Proof.
  destruct (proj1 execute_requires_credentials (uncredentialed answering_client))
    as (Ht & Hs & Ha).
  { apply absent_credentials_missing. left. reflexivity. }
  split; [apply Ht | split; [apply Hs | split; [apply Ha|]]].
  apply (proj2 execute_requires_credentials getMonitors
           (fun _ => monitors_capability answering_client) tt
           (monitors_state answering_client ∅)).
  apply absent_credentials_missing. left. reflexivity.
Defined.

(** C2 at [limit = 0]: the backend returned five items, more than the
    limit, and all five come back. *)
Lemma searchSpans_limit_zero_not_truncated :
  fst (searchSpans.execute (search_with_limit (Some (of_nat 0))) (credentialed answering_client))
    = Return five_spans
  /\ resp_data five_spans = Some [1; 2; 3; 4; 5]%nat
  /\ length_gt (length [1; 2; 3; 4; 5]%nat) (of_nat 0) = true
  /\ length [1; 2; 3; 4; 5]%nat <> 0%nat
  /\ [1; 2; 3; 4; 5]%nat <> firstn 0 [1; 2; 3; 4; 5]%nat.
Proof.
  split; [vm_compute; reflexivity|]. split; [reflexivity|].
  split; [reflexivity|]. split; discriminate.
Qed.

Lemma searchSpans_truncates_witness :
  fst (searchSpans.execute (search_with_limit (Some (of_nat 2))) (credentialed answering_client))
    = Return {| resp_data := Some [1; 2]%nat;
                resp_links := None;
                resp_meta := Some "elapsed" |}
  /\ length (firstn 2 [1; 2; 3; 4; 5]%nat) = 2%nat.
Proof.
  apply (searchSpans_truncates (search_with_limit (Some (of_nat 2)))
           (credentialed answering_client) 2 five_spans [1; 2; 3; 4; 5]%nat);
    [reflexivity | reflexivity | lia | reflexivity | reflexivity | simpl; lia].
Defined.

Lemma limit_zero_is_no_limit_witness :
  backend_calls (snd (getTrace.execute (abc123 (Some (of_Z 0))) (credentialed answering_client)))
    = [ListSpans None (getTrace.request_body "abc123" None)]
  /\ fst (searchSpans.execute (search_with_limit (Some (of_Z 0))) (credentialed answering_client))
     = Return five_spans.
Proof.
  split.
  - apply (proj1 limit_zero_is_no_limit (abc123 (Some (of_Z 0))) (credentialed answering_client));
      [reflexivity | discriminate | reflexivity].
  - apply (proj2 limit_zero_is_no_limit (search_with_limit (Some (of_Z 0)))
             (credentialed answering_client) five_spans); reflexivity.
Defined.

Lemma startup_requires_credentials_witness :
  exists w',
    index.main ∅ ∅ (uncredentialed answering_client) = (index.Exited 1, w')
    /\ console_error_log w' =
         [ [Text "Error: DD_API_KEY is required."];
           [Text "Please provide it via command line argument or .env file."];
           [Text " Command line: --apiKey=your_api_key"] ]
    /\ backend_calls w' = [].
Proof.
  destruct (startup_requires_credentials ∅ ∅ (uncredentialed answering_client))
    as (required & command_line & w' & Hmain & Hlog & Hwhich & Hcalls & _);
    try (left; reflexivity).
  exists w'. split; [exact Hmain|]. split; [|exact Hcalls].
  destruct Hwhich as [(_ & -> & ->) | (Hapi & _)]; [exact Hlog|].
  discriminate Hapi.
Defined.

(** C7 on the command lines [--site] (no value, so [minimist] gives
    [true]) and [--site=123] (a number), with no key anywhere:
    [cleanupUrl] is called on a value that is not a string and throws at
    line 50, before the validation of line 55.  The script ends with an
    uncaught [TypeError]; nothing naming a key was written to
    [console.error]. *)
Theorem startup_crashes_before_validation :
  truthy_opt index.truthy_arg
    (index.DD_API_KEY bare_site (process_env (uncredentialed answering_client) ∪ ∅))
    = false
  /\ (exists w',
      index.main bare_site ∅ (uncredentialed answering_client)
      = (index.Uncaught (new_Error "url.startsWith is not a function"), w')
      /\ console_error_log w' = [])
  /\ (exists w',
      index.main numeric_site ∅ (uncredentialed answering_client)
      = (index.Uncaught (new_Error "url.startsWith is not a function"), w')
      /\ console_error_log w' = []).
Proof.
  split; [reflexivity|]. split; eexists; split; reflexivity.
Qed.
End Answering.

Lemma span_error_translation_witness :
  fst (@getTrace.execute (failing_client 403) (abc123 None) (credentialed (failing_client 403)))
    = Throw (new_Error authorization_failed)
  /\ fst (@searchSpans.execute (failing_client 429) (search_with_limit None)
            (credentialed (failing_client 429)))
     = Throw (new_Error rate_limit_exceeded)
  /\ fst (@getTrace.execute (failing_client 404) (abc123 None) (credentialed (failing_client 404)))
     = Throw (new_Error (getTrace.not_found "abc123"))
  /\ fst (@aggregateSpans.execute (failing_client 404) aggregate_nothing
            (credentialed (failing_client 404)))
     = Throw (failure 404)
  /\ fst (@getTrace.execute (failing_client 500) (abc123 None) (credentialed (failing_client 500)))
     = Throw (failure 500).
Proof.
  split; [|split; [|split; [|split]]].
  - pose proof (proj1 (proj2 (@span_error_translation (failing_client 403)))
                  (abc123 None) (credentialed (failing_client 403)) (failure 403)) as P.
    cbv zeta in P. apply P; [reflexivity | discriminate | reflexivity | reflexivity].
  - pose proof (proj1 (proj2 (proj2 (@span_error_translation (failing_client 429))))
                  (search_with_limit None) (credentialed (failing_client 429)) (failure 429)) as P.
    cbv zeta in P. apply P; reflexivity.
  - pose proof (proj1 (proj2 (@span_error_translation (failing_client 404)))
                  (abc123 None) (credentialed (failing_client 404)) (failure 404)) as P.
    cbv zeta in P. apply P; [reflexivity | discriminate | reflexivity | reflexivity].
  - pose proof (proj2 (proj2 (proj2 (@span_error_translation (failing_client 404))))
                  aggregate_nothing (credentialed (failing_client 404)) (failure 404)) as P.
    cbv zeta in P. apply P; reflexivity.
  - pose proof (proj1 (proj2 (@span_error_translation (failing_client 500)))
                  (abc123 None) (credentialed (failing_client 500)) (failure 500)) as P.
    cbv zeta in P.
    apply P; [reflexivity | discriminate | reflexivity
             | reflexivity | reflexivity | reflexivity].
Defined.

(** * Further properties of the adapters and of the start-up script *)

(** ** What [execute] leaves alone *)

Ltac split_cases :=
  repeat match goal with
         | |- context [if ?c then _ else _] => destruct c eqn:?
         | |- context [match ?x with inl _ => _ | inr _ => _ end] => destruct x eqn:?
         end.

Ltac log_lines :=
  first [ exists []; split; [now rewrite app_nil_r|]; split; [cbn; lia|];
          intros; reflexivity
        | eexists [_]; split; [reflexivity|]; split; [cbn; lia|];
          intros ? [=] ].

Section Frames.
Context `{DatadogClient}.

Lemma getTrace_frame (params : getTrace.Params) (w : World) :
  same_bindings w (snd (getTrace.execute params w)).
Proof.
  unfold same_bindings, getTrace.execute, getTrace.try_block, getTrace.catch_block.
  run_eff. split_cases; cbn; auto.
Qed.

Lemma searchSpans_frame (params : searchSpans.Params) (w : World) :
  same_bindings w (snd (searchSpans.execute params w)).
Proof.
  unfold same_bindings, searchSpans.execute, searchSpans.try_block,
    searchSpans.catch_block.
  run_eff. split_cases; cbn; auto.
Qed.

Lemma aggregateSpans_frame (params : aggregateSpans.Params) (w : World) :
  same_bindings w (snd (aggregateSpans.execute params w)).
Proof.
  unfold same_bindings, aggregateSpans.execute, aggregateSpans.try_block,
    aggregateSpans.catch_block.
  run_eff. split_cases; cbn; auto.
Qed.

(** X1: no [execute] of a span adapter writes [process.env] or rebinds a
    handle, its own included, whether it returns or throws. *)
Theorem execute_keeps_bindings (w : World) :
  (forall params, same_bindings w (snd (getTrace.execute params w)))
  /\ (forall params, same_bindings w (snd (searchSpans.execute params w)))
  /\ (forall params, same_bindings w (snd (aggregateSpans.execute params w))).
Proof.
  split; [|split]; intros params.
  - apply getTrace_frame.
  - apply searchSpans_frame.
  - apply aggregateSpans_frame.
Qed.
(** X2: an [execute] makes one backend call when its validations pass and
    none when they fail; it never makes a second one, whatever the backend
    answers. *)
Theorem execute_calls_backend_once (w : World) :
  (forall params,
      backend_calls (snd (getTrace.execute params w)) =
      backend_calls w ++
      if credentials_missing (process_env w)
         || negb (truthy_string (getTrace.traceId params))
      then []
      else [ListSpans (getTrace_configuration w)
              (getTrace.request_body (getTrace.traceId params)
                 (getTrace.limit params))])
  /\ (forall params,
      backend_calls (snd (searchSpans.execute params w)) =
      backend_calls w ++
      if credentials_missing (process_env w) then []
      else [ListSpans (searchSpans_configuration w)
              (searchSpans.request_body params)])
  /\ (forall params,
      backend_calls (snd (aggregateSpans.execute params w)) =
      backend_calls w ++
      if credentials_missing (process_env w) then []
      else [AggregateSpans (aggregateSpans_configuration w)
              (aggregateSpans.request_body params)]).
Proof.
  split; [|split]; intros params.
  - unfold getTrace.execute, getTrace.try_block, getTrace.catch_block.
    run_eff. destruct (credentials_missing (process_env w));
      destruct (truthy_string (getTrace.traceId params));
      cbn; split_cases; cbn; rewrite ?app_nil_r; reflexivity.
  - unfold searchSpans.execute, searchSpans.try_block, searchSpans.catch_block.
    run_eff. destruct (credentials_missing (process_env w));
      cbn; split_cases; cbn; rewrite ?app_nil_r; reflexivity.
  - unfold aggregateSpans.execute, aggregateSpans.try_block,
      aggregateSpans.catch_block.
    run_eff. destruct (credentials_missing (process_env w));
      cbn; split_cases; cbn; rewrite ?app_nil_r; reflexivity.
Qed.

(** X3: an [execute] writes at most one [console.error] line, and none
    when it returns. *)
Theorem execute_logs_at_most_once (w : World) :
  (forall params, exists lines,
      console_error_log (snd (getTrace.execute params w))
        = console_error_log w ++ lines
      /\ (length lines <= 1)%nat
      /\ (forall r, fst (getTrace.execute params w) = Return r -> lines = []))
  /\ (forall params, exists lines,
      console_error_log (snd (searchSpans.execute params w))
        = console_error_log w ++ lines
      /\ (length lines <= 1)%nat
      /\ (forall r, fst (searchSpans.execute params w) = Return r -> lines = []))
  /\ (forall params, exists lines,
      console_error_log (snd (aggregateSpans.execute params w))
        = console_error_log w ++ lines
      /\ (length lines <= 1)%nat
      /\ (forall r, fst (aggregateSpans.execute params w) = Return r -> lines = [])).
Proof.
  split; [|split]; intros params.
  - unfold getTrace.execute, getTrace.try_block, getTrace.catch_block.
    run_eff. split_cases; cbn;
      log_lines.
  - unfold searchSpans.execute, searchSpans.try_block, searchSpans.catch_block.
    run_eff. split_cases; cbn;
      log_lines.
  - unfold aggregateSpans.execute, aggregateSpans.try_block,
      aggregateSpans.catch_block.
    run_eff. split_cases; cbn;
      log_lines.
Qed.
(** X4: a call rejected by validation is reported on [console.error]
    before the error is re-thrown: one line made of the adapter's label and
    the error itself. *)
Theorem rejected_calls_are_logged (w : World) :
  (credentials_missing (process_env w) = true ->
   (forall params,
       console_error_log (snd (getTrace.execute params w)) =
       console_error_log w ++
       [[Text "Error fetching trace:"; Object (new_Error credentials_required)]])
   /\ (forall params,
       console_error_log (snd (searchSpans.execute params w)) =
       console_error_log w ++
       [[Text "Error searching spans:"; Object (new_Error credentials_required)]])
   /\ (forall params,
       console_error_log (snd (aggregateSpans.execute params w)) =
       console_error_log w ++
       [[Text "Error aggregating spans:"; Object (new_Error credentials_required)]]))
  /\ (credentials_missing (process_env w) = false ->
      forall params,
        getTrace.traceId params = "" ->
        console_error_log (snd (getTrace.execute params w)) =
        console_error_log w ++
        [[Text "Error fetching trace:"; Object (new_Error "traceId is required")]]).
Proof.
  split.
  - intros Hc. split; [|split]; intros params.
    + unfold getTrace.execute, Eff.try_catch.
      now rewrite (getTrace_try_credentials params w Hc).
    + unfold searchSpans.execute, Eff.try_catch.
      now rewrite (searchSpans_try_credentials params w Hc).
    + unfold aggregateSpans.execute, Eff.try_catch.
      now rewrite (aggregateSpans_try_credentials params w Hc).
  - intros Hc params Ht. unfold getTrace.execute, Eff.try_catch.
    now rewrite (getTrace_try_traceId params w Hc Ht).
Qed.

(** X5: what a backend failure [e] leaves on [console.error].  For status
    403 and 429 it is one fixed line, in which [e] does not appear; for a
    404 in get-trace it is nothing; otherwise it is the adapter's label
    followed by [e] itself. *)
Theorem backend_failures_are_logged :
  (forall (params : getTrace.Params) (w : World) (e : JsError),
      credentials_missing (process_env w) = false ->
      getTrace.traceId params <> "" ->
      listSpans (getTrace_configuration w)
        (getTrace.request_body (getTrace.traceId params) (getTrace.limit params))
        = inl e ->
      console_error_log (snd (getTrace.execute params w)) =
      console_error_log w ++
      if status_is e 403 then [[Text authorization_failed_log]]
      else if status_is e 429 then [[Text rate_limit_log]]
      else if status_is e 404 then []
      else [[Text "Error fetching trace:"; Object e]])
  /\ (forall (params : searchSpans.Params) (w : World) (e : JsError),
      credentials_missing (process_env w) = false ->
      listSpans (searchSpans_configuration w) (searchSpans.request_body params)
        = inl e ->
      console_error_log (snd (searchSpans.execute params w)) =
      console_error_log w ++
      if status_is e 403 then [[Text authorization_failed_log]]
      else if status_is e 429 then [[Text rate_limit_log]]
      else [[Text "Error searching spans:"; Object e]])
  /\ (forall (params : aggregateSpans.Params) (w : World) (e : JsError),
      credentials_missing (process_env w) = false ->
      aggregateSpans (aggregateSpans_configuration w)
        (aggregateSpans.request_body params) = inl e ->
      console_error_log (snd (aggregateSpans.execute params w)) =
      console_error_log w ++
      if status_is e 403 then [[Text authorization_failed_log]]
      else if status_is e 429 then [[Text rate_limit_log]]
      else [[Text "Error aggregating spans:"; Object e]]).
Proof.
  split; [|split].
  - intros params w e Hc Ht Hreply. unfold getTrace.execute, Eff.try_catch.
    rewrite (getTrace_try_call params w Hc Ht). cbv zeta. rewrite Hreply.
    unfold getTrace.catch_block. run_eff.
    split_cases; cbn; rewrite ?app_nil_r; reflexivity.
  - intros params w e Hc Hreply. unfold searchSpans.execute, Eff.try_catch.
    rewrite (searchSpans_try_call params w Hc). cbv zeta. rewrite Hreply.
    unfold searchSpans.catch_block. run_eff.
    split_cases; cbn; reflexivity.
  - intros params w e Hc Hreply. unfold aggregateSpans.execute, Eff.try_catch.
    rewrite (aggregateSpans_try_call params w Hc). cbv zeta. rewrite Hreply.
    unfold aggregateSpans.catch_block. run_eff.
    split_cases; cbn; reflexivity.
Qed.

(** ** search-spans: the request and the client-side limit *)

Lemma copy_filter_id (filter : option SpansQueryFilter) : copy_filter filter = filter.
Proof. now destruct filter as [[]|]. Qed.

(** X6: with the credentials set, [searchSpans.execute] sends the caller's
    [filter], [sort] and [page] as they are, typed ["search_request"].  The
    [limit] parameter is not part of the request: it is applied to the
    response only. *)
Theorem searchSpans_request (params : searchSpans.Params) (w : World) :
  credentials_missing (process_env w) = false ->
  backend_calls (snd (searchSpans.execute params w)) =
  backend_calls w ++
  [ListSpans (searchSpans_configuration w)
     {| body_data :=
          {| data_attributes :=
               {| attr_filter := searchSpans.filter params;
                  attr_sort := searchSpans.sort params;
                  attr_page := searchSpans.page params |};
             data_type := "search_request" |} |}].
Proof.
  intros Hc. unfold searchSpans.execute, Eff.try_catch.
  rewrite (searchSpans_try_call params w Hc). cbv zeta.
  unfold searchSpans.request_body. rewrite copy_filter_id.
  destruct (listSpans _ _) as [e|response]; [|reflexivity].
  unfold searchSpans.catch_block. run_eff. split_cases; reflexivity.
Qed.

Lemma searchSpans_returns (params : searchSpans.Params) (w : World)
    (response : SpansListResponse Span Links Meta) :
  credentials_missing (process_env w) = false ->
  listSpans (searchSpans_configuration w) (searchSpans.request_body params)
    = inr response ->
  fst (searchSpans.execute params w)
  = Return (searchSpans.apply_limit (searchSpans.limit params) response).
Proof.
  intros Hc Hreply. unfold searchSpans.execute, Eff.try_catch.
  rewrite (searchSpans_try_call params w Hc). cbv zeta. now rewrite Hreply.
Qed.

(** X7: a response whose list has no more items than a whole-number
    [limit], or that has no list, is returned as the backend sent it. *)
Theorem searchSpans_within_limit (params : searchSpans.Params) (w : World)
    (n : nat) (response : SpansListResponse Span Links Meta) :
  credentials_missing (process_env w) = false ->
  searchSpans.limit params = Some (of_nat n) ->
  listSpans (searchSpans_configuration w) (searchSpans.request_body params)
    = inr response ->
  (forall items, resp_data response = Some items -> (length items <= n)%nat) ->
  fst (searchSpans.execute params w) = Return response.
Proof.
  intros Hc Hl Hreply Hlen.
  rewrite (searchSpans_returns params w response Hc Hreply). f_equal.
  unfold searchSpans.apply_limit. rewrite Hl.
  destruct (resp_data response) as [items|]; [|reflexivity].
  rewrite length_gt_of_nat. specialize (Hlen items eq_refl).
  destruct (Nat.ltb_spec n (length items)); [lia|].
  now rewrite andb_false_r.
Qed.
Lemma relative_end_le (len : nat) (x : number) : (relative_end len x <= len)%nat.
Proof.
  destruct x as [|[]|q]; cbn; try lia.
  destruct (Z.ltb_spec (Qnum q ÷ Z.pos (Qden q)) 0); lia.
Qed.

Lemma truthy_number_of_Z (z : Z) : truthy_number (of_Z z) = negb (z =? 0)%Z.
Proof.
  unfold truthy_number, of_Z, Qeq_bool, inject_Z; cbn.
  now rewrite Z.mul_1_r.
Qed.

Lemma length_gt_of_Z (len : nat) (z : Z) :
  length_gt len (of_Z z) = (z <? Z.of_nat len)%Z.
Proof.
  unfold length_gt, of_Z, Qle_bool, inject_Z; cbn. rewrite !Z.mul_1_r.
  destruct (Z.leb_spec (Z.of_nat len) z); destruct (Z.ltb_spec z (Z.of_nat len));
    cbn; try reflexivity; lia.
Qed.

(** X8: a negative whole-number [limit] of [-k] cuts the last [k] items
    off the response, whatever its length: every list is longer than a
    negative number, and [slice(0, -k)] counts [k] back from the end. *)
Theorem searchSpans_negative_limit (params : searchSpans.Params) (w : World)
    (k : nat) (response : SpansListResponse Span Links Meta) (items : list Span) :
  credentials_missing (process_env w) = false ->
  (0 < k)%nat ->
  searchSpans.limit params = Some (of_Z (- Z.of_nat k)) ->
  listSpans (searchSpans_configuration w) (searchSpans.request_body params)
    = inr response ->
  resp_data response = Some items ->
  fst (searchSpans.execute params w) =
  Return {| resp_data := Some (firstn (length items - k) items);
            resp_links := resp_links response;
            resp_meta := resp_meta response |}.
Proof.
  intros Hc Hk Hl Hreply Hdata.
  rewrite (searchSpans_returns params w response Hc Hreply). f_equal.
  unfold searchSpans.apply_limit. rewrite Hl, Hdata.
  rewrite truthy_number_of_Z, length_gt_of_Z.
  destruct (Z.eqb_spec (- Z.of_nat k) 0); [lia|].
  destruct (Z.ltb_spec (- Z.of_nat k) (Z.of_nat (length items))); [|lia].
  cbn [negb andb]. do 2 f_equal.
  unfold slice0, relative_end, of_Z, inject_Z; cbn [Qnum Qden].
  rewrite Z.quot_1_r.
  destruct (Z.ltb_spec (- Z.of_nat k) 0); [|lia].
  f_equal. lia.
Qed.

(** X9: whatever the [limit] (zero, negative, fractional, NaN, infinite
    or absent), a returned response carries the backend's [links] and
    [meta] untouched, and its item list is a prefix of the backend's list:
    truncation never reorders, adds or replaces an item. *)
Theorem searchSpans_returns_prefix (params : searchSpans.Params) (w : World)
    (response : SpansListResponse Span Links Meta) :
  credentials_missing (process_env w) = false ->
  listSpans (searchSpans_configuration w) (searchSpans.request_body params)
    = inr response ->
  exists r,
    fst (searchSpans.execute params w) = Return r
    /\ resp_links r = resp_links response
    /\ resp_meta r = resp_meta response
    /\ (resp_data response = None -> resp_data r = None)
    /\ (forall items, resp_data response = Some items ->
        exists m, (m <= length items)%nat /\ resp_data r = Some (firstn m items)).
Proof.
  intros Hc Hreply.
  exists (searchSpans.apply_limit (searchSpans.limit params) response).
  split; [now apply searchSpans_returns|].
  unfold searchSpans.apply_limit.
  destruct (searchSpans.limit params) as [l|];
    destruct (resp_data response) as [items|] eqn:Hdata;
    try destruct (truthy_number l && length_gt (length items) l);
    cbn; rewrite ?Hdata; repeat split; try discriminate;
    intros items' [= <-].
  - exists (relative_end (length items) l). split; [apply relative_end_le | reflexivity].
  - exists (length items). split; [lia | now rewrite firstn_all].
  - exists (length items). split; [lia | now rewrite firstn_all].
Qed.

(** X10: with a positive [limit], whole or fractional, a returned item
    list never has more items than [limit]. *)
Theorem searchSpans_at_most_limit (params : searchSpans.Params) (w : World)
    (q : Q) (r : SpansListResponse Span Links Meta) (items : list Span) :
  (0 < q)%Q ->
  searchSpans.limit params = Some (Num q) ->
  fst (searchSpans.execute params w) = Return r ->
  resp_data r = Some items ->
  (inject_Z (Z.of_nat (length items)) <= q)%Q.
Proof.
  intros Hq Hl Hrun Hitems.
  unfold searchSpans.execute, Eff.try_catch in Hrun.
  destruct (credentials_missing (process_env w)) eqn:Hc.
  { rewrite (searchSpans_try_credentials params w Hc) in Hrun.
    destruct (searchSpans_catch_new_Error credentials_required w)
      as (w1 & Heq & _).
    rewrite Heq in Hrun. discriminate Hrun. }
  rewrite (searchSpans_try_call params w Hc) in Hrun. cbv zeta in Hrun.
  destruct (listSpans _ _) as [e|response].
  { unfold searchSpans.catch_block in Hrun. revert Hrun. run_eff.
    split_cases; discriminate. }
  cbn [fst] in Hrun. injection Hrun as <-.
  unfold searchSpans.apply_limit in Hitems. rewrite Hl in Hitems.
  destruct (resp_data response) as [d|] eqn:Hdata;
    [|rewrite Hdata in Hitems; discriminate].
  destruct (truthy_number (Num q) && length_gt (length d) (Num q)) eqn:Hcut.
  - cbn [resp_data] in Hitems. injection Hitems as Heq. subst items.
    unfold slice0. rewrite length_firstn.
    unfold relative_end.
    assert (Hnum : (0 < Qnum q)%Z) by (unfold Qlt in Hq; cbn in Hq; lia).
    assert (Hquot : (0 <= Qnum q ÷ Z.pos (Qden q))%Z)
      by (apply Z.quot_pos; lia).
    destruct (Z.ltb_spec (Qnum q ÷ Z.pos (Qden q)) 0); [lia|].
    unfold Qle, inject_Z; cbn [Qnum Qden]. rewrite Z.mul_1_r.
    rewrite Z.quot_div_nonneg in * by lia.
    pose proof (Z.mul_div_le (Qnum q) (Z.pos (Qden q)) ltac:(lia)) as Hfloor.
    nia.
  - rewrite Hdata in Hitems. injection Hitems as Heq. subst items.
    assert (Hq0 : truthy_number (Num q) = true).
    { cbn. destruct (Qeq_bool q 0) eqn:Hz; [|reflexivity].
      apply Qeq_bool_iff in Hz. rewrite Hz in Hq.
      now apply Qlt_irrefl in Hq. }
    rewrite Hq0 in Hcut. cbn in Hcut.
    destruct (Qle_bool (inject_Z (Z.of_nat (length d))) q) eqn:Hle;
      [|discriminate Hcut].
    now apply Qle_bool_iff.
Qed.
(** ** get-trace: the page limit *)

(** X11: whatever [limit] the caller passes (none, zero, NaN or any other
    number), the page limit [getTrace] puts in the request is truthy: the
    backend is never asked for a page of 0 or of NaN. *)
Theorem getTrace_page_limit_truthy (traceId : string) (limit : option number) :
  exists page_limit,
    attr_page (data_attributes (body_data (getTrace.request_body traceId limit)))
      = Some {| page_limit := Some page_limit; page_cursor := None |}
    /\ truthy_number page_limit = true
    /\ (page_limit = of_Z 1000 \/ limit = Some page_limit).
Proof.
  exists (number_or limit (of_Z 1000)). split; [reflexivity|].
  unfold number_or. destruct limit as [l|]; [|split; [reflexivity | now left]].
  destruct (truthy_number l) eqn:Hl; split; auto.
Qed.

(** ** Start-up: what is stored and what is bound *)

Lemma validate_env (api_key app_key : option index.ArgValue) (w : World) :
  process_env (snd (index.validate_and_serve api_key app_key w)) = process_env w.
Proof. unfold index.validate_and_serve. split_cases; reflexivity. Qed.

Lemma validate_serving (api_key app_key : option index.ArgValue) (w w' : World)
    (tools : list string) :
  index.validate_and_serve api_key app_key w = (index.Serving tools, w') ->
  truthy_opt index.truthy_arg api_key = true
  /\ truthy_opt index.truthy_arg app_key = true
  /\ tools = index.tool_names
  /\ process_env w' = process_env w
  /\ getTrace_configuration w' = Some (build_configuration (process_env w))
  /\ searchSpans_configuration w' = Some (build_configuration (process_env w))
  /\ aggregateSpans_configuration w' = Some (build_configuration (process_env w))
  /\ console_error_log w' = console_error_log w
  /\ backend_calls w' = backend_calls w.
Proof.
  unfold index.validate_and_serve.
  destruct (truthy_opt index.truthy_arg api_key); [|discriminate].
  destruct (truthy_opt index.truthy_arg app_key); [|discriminate].
  cbn. intros [= <- <-]. cbn. repeat split.
Qed.

Lemma validate_serves (api_key app_key : option index.ArgValue) (w : World) :
  truthy_opt index.truthy_arg api_key = true ->
  truthy_opt index.truthy_arg app_key = true ->
  index.validate_and_serve api_key app_key w
  = (index.Serving index.tool_names,
     snd (index.validate_and_serve api_key app_key w)).
Proof.
  intros Hapi Happ. unfold index.validate_and_serve. now rewrite Hapi, Happ.
Qed.

Lemma call_cleanupUrl_inr (v : option index.ArgValue) (cleaned : string) :
  index.call_cleanupUrl v = inr cleaned ->
  exists s, v = Some (index.ArgString s) /\ cleaned = cleanupUrl s.
Proof.
  destruct v as [[s|n c t|b|c t]|]; cbn; try discriminate.
  intros [= <-]. eauto.
Qed.

Lemma call_cleanupUrl_not_string (v : index.ArgValue) :
  (forall s, v <> index.ArgString s) ->
  index.call_cleanupUrl (Some v) = inl (new_Error "url.startsWith is not a function").
Proof. destruct v as [s|n c t|b|c t]; intros Hv; [now destruct (Hv s) | | |]; reflexivity. Qed.

(** A run that reaches the serving state went through the three
    [cleanupUrl] calls with strings and through the validation. *)
Lemma main_serving_inv (argv : gmap string index.ArgValue)
    (dotenv : gmap string string) (w w' : World) (tools : list string) :
  let env := process_env w ∪ dotenv in
  index.main argv dotenv w = (index.Serving tools, w') ->
  exists site logs_site metrics_site,
    index.DD_SITE argv env = Some (index.ArgString site)
    /\ index.DD_LOGS_SITE argv env = Some (index.ArgString logs_site)
    /\ index.DD_METRICS_SITE argv env = Some (index.ArgString metrics_site).
Proof.
  cbv zeta. unfold index.main. intros Hmain.
  destruct (index.call_cleanupUrl (index.DD_SITE argv (process_env w ∪ dotenv)))
    as [e|site] eqn:Hs; [discriminate Hmain|].
  destruct (index.call_cleanupUrl (index.DD_LOGS_SITE argv (process_env w ∪ dotenv)))
    as [e|logs] eqn:Hl; [discriminate Hmain|].
  destruct (index.call_cleanupUrl (index.DD_METRICS_SITE argv (process_env w ∪ dotenv)))
    as [e|metrics] eqn:Hm; [discriminate Hmain|].
  destruct (call_cleanupUrl_inr _ _ Hs) as (s1 & -> & _).
  destruct (call_cleanupUrl_inr _ _ Hl) as (s2 & -> & _).
  destruct (call_cleanupUrl_inr _ _ Hm) as (s3 & -> & _).
  eauto 6.
Qed.

Lemma to_string_truthy (v : option index.ArgValue) :
  truthy_opt index.truthy_arg v = true -> truthy_string (index.to_string v) = true.
Proof.
  destruct v as [[s|n c t|[]|c t]|]; cbn; try discriminate; auto.
Qed.

Lemma or_else_left (v : index.ArgValue) (b : option index.ArgValue) :
  index.truthy_arg v = true -> index.or_else (Some v) b = Some v.
Proof. intros Hv. unfold index.or_else. cbn. now rewrite Hv. Qed.

Lemma or_else_right (a b : option index.ArgValue) :
  truthy_opt index.truthy_arg a = false -> index.or_else a b = b.
Proof. intros Ha. unfold index.or_else. now rewrite Ha. Qed.

(** What line 50 leaves in [process.env.DD_SITE] when the resolved site
    is a string, however the script goes on. *)
Lemma main_stored_site (argv : gmap string index.ArgValue)
    (dotenv : gmap string string) (w : World) (site : string) :
  index.DD_SITE argv (process_env w ∪ dotenv) = Some (index.ArgString site) ->
  process_env (snd (index.main argv dotenv w)) !! "DD_SITE" = Some (cleanupUrl site).
Proof.
  intros Hs. unfold index.main. rewrite Hs. cbn [index.call_cleanupUrl].
  unfold index.env_assign.
  destruct (index.call_cleanupUrl (index.DD_LOGS_SITE argv (process_env w ∪ dotenv)))
    as [e|logs]; [cbn; apply lookup_insert_eq|].
  destruct (index.call_cleanupUrl (index.DD_METRICS_SITE argv (process_env w ∪ dotenv)))
    as [e|metrics].
  - cbn. rewrite lookup_insert_ne by done. apply lookup_insert_eq.
  - rewrite validate_env. cbn.
    rewrite !lookup_insert_ne by done. apply lookup_insert_eq.
Qed.

(** X12: the site the script stores in [process.env.DD_SITE].  A
    non-empty string [--site] wins; when [--site] is falsy (absent, empty,
    [0], [false]) a non-empty [DD_SITE] of the environment after
    [dotenv] is taken; when both are falsy the site is ["datadoghq.com"];
    the stored value is always passed through [cleanupUrl], whether the
    script then exits, throws or serves.  A truthy [--site] that is not a
    string (a number, a bare [--site], a repeated one) makes [cleanupUrl]
    throw: the script ends with an uncaught [TypeError] and [DD_SITE] is
    left as it was. *)
Theorem startup_site_precedence (argv : gmap string index.ArgValue)
    (dotenv : gmap string string) (w : World) :
  let env := process_env w ∪ dotenv in
  let stored := process_env (snd (index.main argv dotenv w)) !! "DD_SITE" in
  (forall s, argv !! "site" = Some (index.ArgString s) -> s <> "" ->
     stored = Some (cleanupUrl s))
  /\ (forall s,
        truthy_opt index.truthy_arg (argv !! "site") = false ->
        env !! "DD_SITE" = Some s -> s <> "" ->
        stored = Some (cleanupUrl s))
  /\ (truthy_opt index.truthy_arg (argv !! "site") = false ->
      truthy_opt truthy_string (env !! "DD_SITE") = false ->
      stored = Some "datadoghq.com")
  /\ (forall v,
        argv !! "site" = Some v -> index.truthy_arg v = true ->
        (forall s, v <> index.ArgString s) ->
        fst (index.main argv dotenv w)
          = index.Uncaught (new_Error "url.startsWith is not a function")
        /\ stored = env !! "DD_SITE").
Proof.
  cbv zeta. split; [|split; [|split]].
  - intros s Hsite Hs. apply main_stored_site.
    unfold index.DD_SITE. rewrite Hsite.
    assert (Ht : index.truthy_arg (index.ArgString s) = true)
      by (now apply truthy_string_nonempty).
    now rewrite !(or_else_left _ _ Ht).
  - intros s Hargv Henv Hs. apply main_stored_site.
    unfold index.DD_SITE, index.env_value.
    rewrite (or_else_right _ _ Hargv), Henv.
    assert (Ht : index.truthy_arg (index.ArgString s) = true)
      by (now apply truthy_string_nonempty).
    cbn [fmap option_fmap option_map]. now rewrite (or_else_left _ _ Ht).
  - intros Hargv Henv.
    change (Some "datadoghq.com") with (Some (cleanupUrl "datadoghq.com")).
    apply main_stored_site.
    unfold index.DD_SITE, index.env_value.
    rewrite (or_else_right _ _ Hargv). apply or_else_right.
    now destruct ((process_env w ∪ dotenv) !! "DD_SITE").
  - intros v Hsite Hv Hnot.
    assert (Hresolved : index.DD_SITE argv (process_env w ∪ dotenv) = Some v).
    { unfold index.DD_SITE. rewrite Hsite. now rewrite !(or_else_left _ _ Hv). }
    unfold index.main. rewrite Hresolved, (call_cleanupUrl_not_string v Hnot).
    split; [reflexivity|]. cbn. unfold index.env_assign.
    now rewrite !lookup_insert_ne by done.
Qed.

(** X13: when the resolved site is a string and neither [--logsSite] nor
    [DD_LOGS_SITE] gives a truthy value, the logs site the script stores
    is the stored [DD_SITE]; when in addition [--logsSite] is a string or
    falsy and neither [--metricsSite] nor [DD_METRICS_SITE] gives a truthy
    value, so is the stored metrics site. *)
Theorem startup_service_sites_fall_back (argv : gmap string index.ArgValue)
    (dotenv : gmap string string) (w : World) :
  let env := process_env w ∪ dotenv in
  let stored := process_env (snd (index.main argv dotenv w)) in
  string_or_falsy (argv !! "site") ->
  (truthy_opt index.truthy_arg
     (index.or_else (argv !! "logsSite") (index.env_value env "DD_LOGS_SITE")) = false ->
   stored !! "DD_LOGS_SITE" = stored !! "DD_SITE")
  /\ (string_or_falsy (argv !! "logsSite") ->
      truthy_opt index.truthy_arg
        (index.or_else (argv !! "metricsSite")
           (index.env_value env "DD_METRICS_SITE")) = false ->
      stored !! "DD_METRICS_SITE" = stored !! "DD_SITE").
Proof.
  cbv zeta. intros Hsite.
  destruct (resolved_string _ (process_env w ∪ dotenv) "DD_SITE" "datadoghq.com" Hsite)
    as (site & Hs).
  change (index.DD_SITE argv (process_env w ∪ dotenv) = Some (index.ArgString site))
    in Hs.
  split.
  - intros Hnone. rewrite (main_stored_site argv dotenv w site Hs).
    unfold index.main. rewrite Hs. cbn [index.call_cleanupUrl].
    unfold index.DD_LOGS_SITE at 1. rewrite (or_else_right _ _ Hnone), Hs.
    cbn [index.call_cleanupUrl]. unfold index.env_assign.
    destruct (index.call_cleanupUrl
                (index.DD_METRICS_SITE argv (process_env w ∪ dotenv))) as [e|metrics].
    + cbn. apply lookup_insert_eq.
    + rewrite validate_env. cbn.
      rewrite lookup_insert_ne by done. apply lookup_insert_eq.
  - intros Hlogs Hnone. rewrite (main_stored_site argv dotenv w site Hs).
    destruct (resolved_string _ (process_env w ∪ dotenv) "DD_LOGS_SITE" site Hlogs)
      as (logs & Hl).
    unfold index.main. rewrite Hs. cbn [index.call_cleanupUrl].
    unfold index.DD_LOGS_SITE at 1. rewrite Hs, Hl. cbn [index.call_cleanupUrl].
    unfold index.DD_METRICS_SITE at 1. rewrite (or_else_right _ _ Hnone), Hs.
    cbn [index.call_cleanupUrl]. rewrite validate_env. cbn.
    unfold index.env_assign. apply lookup_insert_eq.
Qed.

(** X14: when the three site options of the command line are strings or
    falsy and both keys resolve to truthy values, the script reaches the
    serving state with the thirteen tools registered.  By then
    [process.env] holds the string conversions of the resolved keys, each
    span adapter is bound to the handle built from that environment,
    nothing has been logged and no backend call has been made. *)
Theorem startup_serves (argv : gmap string index.ArgValue)
    (dotenv : gmap string string) (w : World) :
  let env := process_env w ∪ dotenv in
  let api_key := index.DD_API_KEY argv env in
  let app_key := index.DD_APP_KEY argv env in
  string_or_falsy (argv !! "site") ->
  string_or_falsy (argv !! "logsSite") ->
  string_or_falsy (argv !! "metricsSite") ->
  truthy_opt index.truthy_arg api_key = true ->
  truthy_opt index.truthy_arg app_key = true ->
  exists w',
    index.main argv dotenv w = (index.Serving index.tool_names, w')
    /\ length index.tool_names = 13%nat
    /\ process_env w' !! "DD_API_KEY" = Some (index.to_string api_key)
    /\ process_env w' !! "DD_APP_KEY" = Some (index.to_string app_key)
    /\ getTrace_configuration w' = Some (build_configuration (process_env w'))
    /\ searchSpans_configuration w' = Some (build_configuration (process_env w'))
    /\ aggregateSpans_configuration w' = Some (build_configuration (process_env w'))
    /\ console_error_log w' = console_error_log w
    /\ backend_calls w' = backend_calls w.
Proof.
  cbv zeta. intros Hsite Hlogs Hmetrics Hapi Happ.
  destruct (main_strings argv (process_env w ∪ dotenv) Hsite Hlogs Hmetrics)
    as (site & logs & metrics & Hs & Hl & Hm).
  pose proof (main_run argv dotenv w site logs metrics Hs Hl Hm) as Hrun.
  cbv zeta in Hrun.
  match type of Hrun with
  | _ = index.validate_and_serve _ _ ?w0 =>
      pose proof (validate_serves _ _ w0 Hapi Happ) as Hserves
  end.
  rewrite Hserves in Hrun.
  destruct (validate_serving _ _ _ _ _ Hserves)
    as (_ & _ & _ & Henv & Ht & Hss & Ha & Hlog & Hcalls).
  eexists. split; [exact Hrun|]. split; [reflexivity|].
  rewrite Henv, Ht, Hss, Ha, Hlog, Hcalls. cbn.
  repeat split.
  - rewrite !lookup_insert_ne by done. apply lookup_insert_eq.
  - rewrite !lookup_insert_ne by done. apply lookup_insert_eq.
Qed.

Lemma main_credentials (argv : gmap string index.ArgValue)
    (dotenv : gmap string string) (w w' : World) (tools : list string) :
  index.main argv dotenv w = (index.Serving tools, w') ->
  credentials_missing (process_env w') = false
  /\ getTrace_configuration w' = Some (build_configuration (process_env w'))
  /\ searchSpans_configuration w' = Some (build_configuration (process_env w'))
  /\ aggregateSpans_configuration w' = Some (build_configuration (process_env w'))
  /\ backend_calls w' = backend_calls w.
Proof.
  intros Hmain.
  destruct (main_serving_inv argv dotenv w w' tools Hmain)
    as (site & logs & metrics & Hs & Hl & Hm).
  pose proof (main_run argv dotenv w site logs metrics Hs Hl Hm) as Hrun.
  cbv zeta in Hrun. rewrite Hrun in Hmain.
  destruct (validate_serving _ _ _ _ _ Hmain)
    as (Hapi & Happ & _ & Henv & Ht & Hss & Ha & _ & Hcalls).
  rewrite Henv, Ht, Hss, Ha, Hcalls. cbn. repeat split.
  unfold credentials_missing.
  rewrite !lookup_insert_ne by done. rewrite lookup_insert_eq.
  rewrite !lookup_insert_ne by done. rewrite lookup_insert_eq. cbn.
  now rewrite (to_string_truthy _ Hapi), (to_string_truthy _ Happ).
Qed.

Lemma searchSpans_calls (params : searchSpans.Params) (w : World) :
  credentials_missing (process_env w) = false ->
  backend_calls (snd (searchSpans.execute params w)) =
  backend_calls w ++
  [ListSpans (searchSpans_configuration w) (searchSpans.request_body params)].
Proof.
  intros Hc. unfold searchSpans.execute, Eff.try_catch.
  rewrite (searchSpans_try_call params w Hc). cbv zeta.
  destruct (listSpans _ _) as [e|response]; [|reflexivity].
  unfold searchSpans.catch_block. run_eff. split_cases; reflexivity.
Qed.

Lemma aggregateSpans_calls (params : aggregateSpans.Params) (w : World) :
  credentials_missing (process_env w) = false ->
  backend_calls (snd (aggregateSpans.execute params w)) =
  backend_calls w ++
  [AggregateSpans (aggregateSpans_configuration w)
     (aggregateSpans.request_body params)].
Proof.
  intros Hc. unfold aggregateSpans.execute, Eff.try_catch.
  rewrite (aggregateSpans_try_call params w Hc). cbv zeta.
  destruct (aggregateSpans _ _) as [e|response]; [|reflexivity].
  unfold aggregateSpans.catch_block. run_eff. split_cases; reflexivity.
Qed.

(** X15: once the script serves, the credential check of the adapters
    cannot fail: the keys it stored are non-empty, and no [execute]
    changes them.  So every later search-spans or aggregate-spans call,
    and every get-trace call with a non-empty [traceId], reaches the
    backend, through the handle bound at start-up. *)
Theorem serving_calls_reach_backend (argv : gmap string index.ArgValue)
    (dotenv : gmap string string) (w w' : World) (tools : list string) :
  index.main argv dotenv w = (index.Serving tools, w') ->
  credentials_missing (process_env w') = false
  /\ ((forall params,
         credentials_missing (process_env (snd (getTrace.execute params w'))) = false)
      /\ (forall params,
         credentials_missing (process_env (snd (searchSpans.execute params w'))) = false)
      /\ (forall params,
         credentials_missing
           (process_env (snd (aggregateSpans.execute params w'))) = false))
  /\ (forall params,
        getTrace.traceId params <> "" ->
        backend_calls (snd (getTrace.execute params w')) =
        backend_calls w ++
        [ListSpans (Some (build_configuration (process_env w')))
           (getTrace.request_body (getTrace.traceId params) (getTrace.limit params))])
  /\ (forall params,
        backend_calls (snd (searchSpans.execute params w')) =
        backend_calls w ++
        [ListSpans (Some (build_configuration (process_env w')))
           (searchSpans.request_body params)])
  /\ (forall params,
        backend_calls (snd (aggregateSpans.execute params w')) =
        backend_calls w ++
        [AggregateSpans (Some (build_configuration (process_env w')))
           (aggregateSpans.request_body params)]).
Proof.
  intros Hmain.
  destruct (main_credentials _ _ _ _ _ Hmain) as (Hc & Ht & Hs & Ha & Hcalls).
  split; [exact Hc|]. split; [|split; [|split]].
  - split; [|split]; intros params.
    + destruct (getTrace_frame params w') as (-> & _). exact Hc.
    + destruct (searchSpans_frame params w') as (-> & _). exact Hc.
    + destruct (aggregateSpans_frame params w') as (-> & _). exact Hc.
  - intros params Hid.
    rewrite (getTrace_calls params w' Hc Hid), Ht, Hcalls. reflexivity.
  - intros params. rewrite (searchSpans_calls params w' Hc), Hs, Hcalls. reflexivity.
  - intros params.
    rewrite (aggregateSpans_calls params w' Hc), Ha, Hcalls. reflexivity.
Qed.

Lemma main_site_cli (argv : gmap string index.ArgValue) (dotenv : gmap string string)
    (w : World) (s : string) :
  argv !! "site" = Some (index.ArgString s) -> s <> "" ->
  process_env (snd (index.main argv dotenv w)) !! "DD_SITE" = Some (cleanupUrl s).
Proof.
  intros Hsite Hs. apply main_stored_site.
  unfold index.DD_SITE. rewrite Hsite.
  assert (Ht : index.truthy_arg (index.ArgString s) = true)
    by (now apply truthy_string_nonempty).
  now rewrite !(or_else_left _ _ Ht).
Qed.

(** X16: a site given as ["https://" ++ s] with [s] non-empty reaches the
    handles as [s]: each adapter is bound to
    [setServerVariables (createConfiguration ...) s].  A site that is
    exactly ["https://"] is cleaned to the empty string, and the handles
    are then built without any server variable. *)
Theorem startup_handle_site (argv : gmap string index.ArgValue)
    (dotenv : gmap string string) (w w' : World) (tools : list string) :
  index.main argv dotenv w = (index.Serving tools, w') ->
  let env' := process_env w' in
  let plain :=
    createConfiguration env' (env' !! "DD_API_KEY") (env' !! "DD_APP_KEY") in
  (forall s, argv !! "site" = Some (index.ArgString ("https://" +:+ s)) -> s <> "" ->
     getTrace_configuration w' = Some (setServerVariables plain s)
     /\ searchSpans_configuration w' = Some (setServerVariables plain s)
     /\ aggregateSpans_configuration w' = Some (setServerVariables plain s))
  /\ (argv !! "site" = Some (index.ArgString "https://") ->
      getTrace_configuration w' = Some plain
      /\ searchSpans_configuration w' = Some plain
      /\ aggregateSpans_configuration w' = Some plain).
Proof.
  intros Hmain. cbv zeta.
  destruct (main_credentials _ _ _ _ _ Hmain) as (_ & -> & -> & -> & _).
  pose proof (main_site_cli argv dotenv w) as Hcli.
  rewrite Hmain in Hcli. cbn [snd] in Hcli.
  split.
  - intros s Hsite Hs.
    assert (Hstored : process_env w' !! "DD_SITE" = Some s).
    { rewrite (Hcli _ Hsite) by discriminate.
      now rewrite cleanupUrl_prefixed. }
    unfold build_configuration. rewrite Hstored.
    now rewrite (truthy_string_nonempty s Hs).
  - intros Hsite.
    assert (Hstored : process_env w' !! "DD_SITE" = Some "").
    { now rewrite (Hcli _ Hsite) by discriminate. }
    unfold build_configuration. now rewrite Hstored.
Qed.

(** ** aggregate-spans: the request *)

Lemma computeSpecs_id (compute : option (list SpansCompute)) :
  aggregateSpans.computeSpecs compute = compute.
Proof.
  destruct compute as [l|]; [|reflexivity]. cbn. f_equal.
  induction l as [|[] l IH]; cbn; [reflexivity | now rewrite IH].
Qed.

(** X17: with the credentials set, [aggregateSpans.execute] sends the
    caller's [filter], [compute] list and [options] as they are, with the
    group-by list rebuilt by [groupBySpecs], typed ["aggregate_request"];
    and what the backend answers is returned as it is. *)
Theorem aggregateSpans_request (params : aggregateSpans.Params) (w : World) :
  credentials_missing (process_env w) = false ->
  backend_calls (snd (aggregateSpans.execute params w)) =
    backend_calls w ++
    [AggregateSpans (aggregateSpans_configuration w)
       {| agg_body_data :=
            {| agg_data_attributes :=
                 {| agg_filter := aggregateSpans.filter params;
                    agg_compute := aggregateSpans.compute params;
                    agg_groupBy :=
                      aggregateSpans.groupBySpecs (aggregateSpans.groupBy params);
                    agg_options := aggregateSpans.options params |};
               agg_data_type := "aggregate_request" |} |}]
  /\ (forall response,
        aggregateSpans (aggregateSpans_configuration w)
          (aggregateSpans.request_body params) = inr response ->
        fst (aggregateSpans.execute params w) = Return response).
Proof.
  intros Hc. split.
  - rewrite (aggregateSpans_calls params w Hc).
    unfold aggregateSpans.request_body. now rewrite copy_filter_id, computeSpecs_id.
  - intros response Hreply. unfold aggregateSpans.execute, Eff.try_catch.
    rewrite (aggregateSpans_try_call params w Hc). cbv zeta. now rewrite Hreply.
Qed.

Lemma set_if_truthy_forwarded (field : option string) :
  forwarded_unless_empty field (aggregateSpans.set_if_truthy field).
Proof.
  destruct field as [[|c f]|]; cbn.
  - right. split; reflexivity.
  - left. split; [discriminate | reflexivity].
  - left. split; [discriminate | reflexivity].
Qed.

Lemma set_if_truthy_idem (field : option string) :
  aggregateSpans.set_if_truthy (aggregateSpans.set_if_truthy field)
  = aggregateSpans.set_if_truthy field.
Proof. now destruct field as [[|c f]|]. Qed.

(** X18: the group-by list sent to the backend has the entries of the
    caller's list, in order, each with its [facet] and [limit]; an entry
    has a [sort] exactly when the caller's has one, and each field of that
    [sort] is the caller's unless the caller's is the empty string, which
    is left out.  Rebuilding a rebuilt list changes nothing. *)
Theorem groupBySpecs_forwards (given : list SpansGroupBy) :
  exists sent,
    aggregateSpans.groupBySpecs (Some given) = Some sent
    /\ Forall2 group_forwarded given sent
    /\ aggregateSpans.groupBySpecs (Some sent) = Some sent.
Proof.
  unfold aggregateSpans.groupBySpecs. cbn [option_map].
  eexists. split; [reflexivity|]. split.
  - induction given as [|g given IH]; cbn; constructor; [|exact IH].
    repeat split.
    destruct (groupBy_sort g) as [s|]; constructor.
    repeat split; apply set_if_truthy_forwarded.
  - f_equal. induction given as [|g given IH]; cbn; [reflexivity|].
    rewrite IH. f_equal.
    destruct (groupBy_sort g) as [s|]; cbn; [|reflexivity].
    now rewrite !set_if_truthy_idem.
Qed.
End Frames.

(** ** Site normalization: when a second pass still strips *)

Lemma prefix_app_exists (p s : string) :
  String.prefix p s = true -> exists rest, s = p +:+ rest.
Proof.
  revert s. induction p as [|c p IH]; intros s Hp.
  - now exists s.
  - destruct s as [|d s]; [discriminate Hp|]. cbn in Hp.
    destruct (Ascii.ascii_dec c d) as [->|]; [|discriminate Hp].
    destruct (IH s Hp) as (rest & ->). now exists rest.
Qed.

Lemma prefix_app_cancel (p q s : string) :
  String.prefix (p +:+ q) (p +:+ s) = String.prefix q s.
Proof.
  induction p as [|c p IH]; [reflexivity|].
  change (String c p +:+ q) with (String c (p +:+ q)).
  change (String c p +:+ s) with (String c (p +:+ s)).
  cbn [String.prefix].
  destruct (Ascii.ascii_dec c c); [exact IH | congruence].
Qed.

Lemma string_length_app (p s : string) :
  String.length (p +:+ s) = (String.length p + String.length s)%nat.
Proof.
  induction p as [|c p IH]; [reflexivity|].
  change (String c p +:+ s) with (String c (p +:+ s)). cbn [String.length].
  now rewrite IH.
Qed.

Lemma app_longer (p s : string) : p <> "" -> s <> p +:+ s.
Proof.
  intros Hp Heq. apply (f_equal String.length) in Heq.
  rewrite string_length_app in Heq.
  destruct p; [congruence|]. cbn in Heq. lia.
Qed.

(** X19: [cleanupUrl] strips again on a second pass exactly when the value
    begins with the prefix twice: [cleanupUrl (cleanupUrl url) = cleanupUrl url]
    holds if and only if [url] does not begin with ["https://https://"]. *)
Theorem cleanupUrl_idempotent_iff (url : string) :
  cleanupUrl (cleanupUrl url) = cleanupUrl url
  <-> String.prefix "https://https://" url = false.
Proof.
  destruct (String.prefix "https://" url) eqn:Hp.
  - destruct (prefix_app_exists _ _ Hp) as (rest & ->).
    rewrite cleanupUrl_prefixed.
    change "https://https://" with ("https://" +:+ "https://").
    rewrite prefix_app_cancel.
    destruct (String.prefix "https://" rest) eqn:Hp2.
    + destruct (prefix_app_exists _ _ Hp2) as (rest2 & ->).
      rewrite cleanupUrl_prefixed. split; [|discriminate].
      intros Heq. now apply app_longer in Heq.
    + split; [reflexivity|]. intros _. now apply cleanupUrl_unprefixed.
  - rewrite (cleanupUrl_unprefixed url Hp). split; [|now rewrite (cleanupUrl_unprefixed url Hp)].
    intros _. destruct (String.prefix "https://https://" url) eqn:Hpp; [|reflexivity].
    destruct (prefix_app_exists _ _ Hpp) as (rest & ->).
    change ("https://https://" +:+ rest) with ("https://" +:+ ("https://" +:+ rest)) in Hp.
    rewrite prefix_refl_app in Hp. discriminate Hp.
Qed.

(** ** The span tools: schema defaults *)

Section Tools.
Context `{DatadogClient}.
Variable JSON_stringify : forall A : Type, A -> string.

Lemma apply_limit_cuts (n : nat) (response : SpansListResponse Span Links Meta)
    (items : list Span) :
  (0 < n)%nat ->
  resp_data response = Some items ->
  (n < length items)%nat ->
  searchSpans.apply_limit (Some (of_nat n)) response =
  {| resp_data := Some (firstn n items);
     resp_links := resp_links response;
     resp_meta := resp_meta response |}.
Proof.
  intros Hn Hdata Hlen. unfold searchSpans.apply_limit. rewrite Hdata.
  rewrite truthy_number_of_nat, length_gt_of_nat.
  destruct (Nat.eqb_spec n 0); [lia|].
  destruct (Nat.ltb_spec n (length items)); [|lia].
  cbn [negb andb]. now rewrite slice0_of_nat.
Qed.

(** X20: a search-spans tool call that gives no [limit] gets the default
    of 100: when the backend answers with more than 100 items, the text
    returned to the caller is the serialization of the response cut to its
    first 100 items.  A get-trace tool call that gives no [limit] asks
    the backend for a page of 1000. *)
Theorem tools_default_limits (w : World) :
  credentials_missing (process_env w) = false ->
  (forall (given : searchSpans.Params) response items,
      searchSpans.limit given = None ->
      listSpans (searchSpans_configuration w) (searchSpans.request_body given)
        = inr response ->
      resp_data response = Some items ->
      (100 < length items)%nat ->
      fst (tools.search_spans JSON_stringify (tools.search_spans_args given) w) =
      Return (tools.text_result JSON_stringify
                {| resp_data := Some (firstn 100 items);
                   resp_links := resp_links response;
                   resp_meta := resp_meta response |}))
  /\ (forall (given : getTrace.Params),
      getTrace.limit given = None ->
      getTrace.traceId given <> "" ->
      backend_calls (snd (tools.get_trace JSON_stringify (tools.get_trace_args given) w)) =
      backend_calls w ++
      [ListSpans (getTrace_configuration w)
         (getTrace.request_body (getTrace.traceId given) (Some (of_Z 1000)))]).
Proof.
  intros Hc. split.
  - intros given response items Hl Hreply Hdata Hlen.
    unfold tools.search_spans, Eff.bind.
    pose proof (searchSpans_returns (tools.search_spans_args given) w response Hc Hreply)
      as Hrun.
    destruct (searchSpans.execute (tools.search_spans_args given) w) as [c w1].
    cbn [fst] in Hrun. rewrite Hrun. cbn. do 2 f_equal.
    rewrite Hl. cbn [default].
    exact (apply_limit_cuts 100 response items ltac:(lia) Hdata Hlen).
  - intros given Hl Hid.
    unfold tools.get_trace, Eff.bind, Eff.ret.
    pose proof (getTrace_calls (tools.get_trace_args given) w Hc Hid) as Hcalls.
    destruct (getTrace.execute (tools.get_trace_args given) w) as [[r|e] w1];
      cbn [snd fst] in *; rewrite Hcalls; cbn; now rewrite Hl.
Qed.
End Tools.

(** ** The further properties on concrete calls *)

Section Concrete.
#[local] Existing Instance answering_client.

Lemma execute_logs_at_most_once_witness :
  exists lines,
    console_error_log
      (snd (getTrace.execute (abc123 None) (credentialed answering_client)))
      = [] ++ lines
    /\ lines = [].
Proof.
  destruct (proj1 (execute_logs_at_most_once (credentialed answering_client))
              (abc123 None)) as (lines & Hlog & _ & Hsilent).
  exists lines. split; [exact Hlog|].
  eapply Hsilent. vm_compute. reflexivity.
Defined.

Lemma rejected_calls_are_logged_witness :
  console_error_log
    (snd (searchSpans.execute (search_with_limit None) (uncredentialed answering_client)))
  = [[Text "Error searching spans:"; Object (new_Error credentials_required)]]
  /\ console_error_log
       (snd (getTrace.execute {| getTrace.traceId := ""; getTrace.limit := None |}
               (credentialed answering_client)))
     = [[Text "Error fetching trace:"; Object (new_Error "traceId is required")]].
Proof.
  split.
  - apply (proj1 (proj2 (proj1 (rejected_calls_are_logged
                                  (uncredentialed answering_client)) eq_refl))).
  - apply (proj2 (rejected_calls_are_logged (credentialed answering_client)));
      reflexivity.
Defined.

Lemma searchSpans_request_witness :
  backend_calls
    (snd (searchSpans.execute (search_with_limit (Some (of_nat 2)))
            (credentialed answering_client)))
  = [] ++
    [ListSpans None
       {| body_data :=
            {| data_attributes :=
                 {| attr_filter := None; attr_sort := None; attr_page := None |};
               data_type := "search_request" |} |}].
Proof.
  apply (searchSpans_request (search_with_limit (Some (of_nat 2)))
           (credentialed answering_client)).
  reflexivity.
Defined.

Lemma searchSpans_within_limit_witness :
  fst (searchSpans.execute (search_with_limit (Some (of_nat 5)))
         (credentialed answering_client))
  = Return five_spans.
Proof.
  apply (searchSpans_within_limit (search_with_limit (Some (of_nat 5)))
           (credentialed answering_client) 5 five_spans);
    [reflexivity | reflexivity | reflexivity |].
  intros items [= <-]. cbn. lia.
Defined.

Lemma searchSpans_negative_limit_witness :
  fst (searchSpans.execute (search_with_limit (Some (of_Z (-2))))
         (credentialed answering_client))
  = Return {| resp_data := Some [1; 2; 3]%nat;
              resp_links := None;
              resp_meta := Some "elapsed" |}.
Proof.
  apply (searchSpans_negative_limit (search_with_limit (Some (of_Z (-2))))
           (credentialed answering_client) 2 five_spans [1; 2; 3; 4; 5]%nat);
    [reflexivity | lia | reflexivity | reflexivity | reflexivity].
Defined.

Lemma searchSpans_returns_prefix_witness :
  exists r,
    fst (searchSpans.execute (search_with_limit (Some NaN))
           (credentialed answering_client)) = Return r
    /\ resp_meta r = Some "elapsed"
    /\ exists m, resp_data r = Some (firstn m [1; 2; 3; 4; 5]%nat).
Proof.
  destruct (searchSpans_returns_prefix (search_with_limit (Some NaN))
              (credentialed answering_client) five_spans eq_refl eq_refl)
    as (r & Hrun & _ & Hmeta & _ & Hprefix).
  exists r. split; [exact Hrun|]. split; [exact Hmeta|].
  destruct (Hprefix _ eq_refl) as (m & _ & Hdata). now exists m.
Defined.

Lemma searchSpans_at_most_limit_witness :
  (inject_Z (Z.of_nat (length [1; 2]%nat)) <= 5 # 2)%Q.
Proof.
  apply (searchSpans_at_most_limit (search_with_limit (Some (Num (5 # 2))))
           (credentialed answering_client) (5 # 2)
           {| resp_data := Some [1; 2]%nat;
              resp_links := None;
              resp_meta := Some "elapsed" |}
           [1; 2]%nat);
    [reflexivity | reflexivity | vm_compute; reflexivity | reflexivity].
Defined.

Lemma aggregateSpans_request_witness :
  backend_calls (snd (aggregateSpans.execute aggregate_nothing
                        (credentialed answering_client)))
  = [] ++
    [AggregateSpans None
       {| agg_body_data :=
            {| agg_data_attributes :=
                 {| agg_filter := None;
                    agg_compute := None;
                    agg_groupBy := None;
                    agg_options := None |};
               agg_data_type := "aggregate_request" |} |}]
  /\ fst (aggregateSpans.execute aggregate_nothing (credentialed answering_client))
     = Return 7%nat.
Proof.
  destruct (aggregateSpans_request aggregate_nothing (credentialed answering_client)
              eq_refl) as (Hcalls & Hresult).
  split; [exact Hcalls | now apply Hresult].
Defined.

Lemma startup_site_precedence_witness :
  process_env (snd (index.main cli_args ∅ (uncredentialed answering_client)))
    !! "DD_SITE" = Some "datadoghq.eu"
  /\ process_env (snd (index.main ∅ (<["DD_SITE" := "datadoghq.eu"]> ∅)
                         (uncredentialed answering_client)))
       !! "DD_SITE" = Some "datadoghq.eu"
  /\ process_env (snd (index.main ∅ ∅ (uncredentialed answering_client)))
       !! "DD_SITE" = Some "datadoghq.com"
  /\ fst (index.main bare_site ∅ (uncredentialed answering_client))
     = index.Uncaught (new_Error "url.startsWith is not a function").
Proof.
  split; [|split; [|split]].
  - apply (proj1 (startup_site_precedence cli_args ∅ (uncredentialed answering_client))
             "https://datadoghq.eu"); [reflexivity | discriminate].
  - apply (proj1 (proj2 (startup_site_precedence ∅ (<["DD_SITE" := "datadoghq.eu"]> ∅)
                           (uncredentialed answering_client)))
             "datadoghq.eu"); [reflexivity | reflexivity | discriminate].
  - apply (proj1 (proj2 (proj2 (startup_site_precedence ∅ ∅
                                  (uncredentialed answering_client)))));
      reflexivity.
  - apply (proj2 (proj2 (proj2 (startup_site_precedence bare_site ∅
                                  (uncredentialed answering_client))))
             (index.ArgBoolean true)); [reflexivity | reflexivity | discriminate].
Defined.

Lemma startup_service_sites_fall_back_witness :
  process_env (snd (index.main cli_args ∅ (uncredentialed answering_client)))
    !! "DD_LOGS_SITE"
  = process_env (snd (index.main cli_args ∅ (uncredentialed answering_client)))
      !! "DD_SITE"
  /\ process_env (snd (index.main cli_args ∅ (uncredentialed answering_client)))
       !! "DD_METRICS_SITE"
     = process_env (snd (index.main cli_args ∅ (uncredentialed answering_client)))
         !! "DD_SITE".
Proof.
  assert (Hsite : string_or_falsy (cli_args !! "site")).
  { right. eexists. reflexivity. }
  destruct (startup_service_sites_fall_back cli_args ∅
              (uncredentialed answering_client) Hsite) as (Hlogs & Hmetrics).
  split; [apply Hlogs; reflexivity|].
  apply Hmetrics; [left|]; reflexivity.
Defined.

Lemma startup_serves_witness :
  exists w',
    index.main cli_args ∅ (uncredentialed answering_client)
      = (index.Serving index.tool_names, w')
    /\ process_env w' !! "DD_API_KEY" = Some "api-key"
    /\ backend_calls w' = [].
Proof.
  destruct (startup_serves cli_args ∅ (uncredentialed answering_client))
    as (w' & Hmain & _ & Hapi & _ & _ & _ & _ & _ & Hcalls);
    [right; eexists; reflexivity | left; reflexivity | left; reflexivity
    | reflexivity | reflexivity |].
  exists w'. split; [exact Hmain|]. split; [exact Hapi | exact Hcalls].
Defined.

Lemma serving_calls_reach_backend_witness :
  credentials_missing
    (process_env (snd (index.main cli_args ∅ (uncredentialed answering_client))))
  = false.
Proof.
  assert (Hmain :
    index.main cli_args ∅ (uncredentialed answering_client)
    = (index.Serving index.tool_names,
       snd (index.main cli_args ∅ (uncredentialed answering_client))))
    by (vm_compute; reflexivity).
  exact (proj1 (serving_calls_reach_backend cli_args ∅
                  (uncredentialed answering_client) _ _ Hmain)).
Defined.

Lemma startup_handle_site_witness :
  getTrace_configuration
    (snd (index.main cli_args ∅ (uncredentialed answering_client)))
  = Some (Some "api-key", Some "app-key", Some "datadoghq.eu").
Proof.
  assert (Hmain :
    index.main cli_args ∅ (uncredentialed answering_client)
    = (index.Serving index.tool_names,
       snd (index.main cli_args ∅ (uncredentialed answering_client))))
    by (vm_compute; reflexivity).
  destruct (proj1 (startup_handle_site cli_args ∅
                     (uncredentialed answering_client) _ _ Hmain)
              "datadoghq.eu") as (Hbound & _); [reflexivity | discriminate |].
  rewrite Hbound. vm_compute. reflexivity.
Defined.

Lemma cleanupUrl_idempotent_iff_witness :
  cleanupUrl (cleanupUrl "https://datadoghq.eu") = cleanupUrl "https://datadoghq.eu".
Proof.
  apply (proj2 (cleanupUrl_idempotent_iff "https://datadoghq.eu")). reflexivity.
Defined.
End Concrete.

Lemma backend_failures_are_logged_witness :
  console_error_log
    (snd (@getTrace.execute (failing_client 403) (abc123 None)
            (credentialed (failing_client 403))))
  = [[Text authorization_failed_log]]
  /\ console_error_log
       (snd (@getTrace.execute (failing_client 404) (abc123 None)
               (credentialed (failing_client 404))))
     = []
  /\ console_error_log
       (snd (@searchSpans.execute (failing_client 404) (search_with_limit None)
               (credentialed (failing_client 404))))
     = [[Text "Error searching spans:"; Object (failure 404)]].
Proof.
  split; [|split].
  - apply (proj1 (@backend_failures_are_logged (failing_client 403))
             (abc123 None) (credentialed (failing_client 403)) (failure 403));
      [reflexivity | discriminate | reflexivity].
  - apply (proj1 (@backend_failures_are_logged (failing_client 404))
             (abc123 None) (credentialed (failing_client 404)) (failure 404));
      [reflexivity | discriminate | reflexivity].
  - apply (proj1 (proj2 (@backend_failures_are_logged (failing_client 404)))
             (search_with_limit None) (credentialed (failing_client 404))
             (failure 404));
      reflexivity.
Defined.

Lemma tools_default_limits_witness :
  fst (@tools.search_spans busy_client no_stringify
         (tools.search_spans_args (search_with_limit None)) (credentialed busy_client))
  = Return (@tools.text_result no_stringify (SpansListResponse nat string string)
              {| resp_data := Some (seq 1 100);
                 resp_links := None;
                 resp_meta := Some "elapsed" |})
  /\ backend_calls
       (snd (@tools.get_trace busy_client no_stringify
               (tools.get_trace_args (abc123 None)) (credentialed busy_client)))
     = [] ++
       [ListSpans None (@getTrace.request_body "abc123" (Some (of_Z 1000)))].
Proof.
  split.
  - apply (proj1 (@tools_default_limits busy_client no_stringify
                    (credentialed busy_client) eq_refl)
             (search_with_limit None) many_spans (seq 1 150));
      [reflexivity | reflexivity | reflexivity | cbn; lia].
  - apply (proj2 (@tools_default_limits busy_client no_stringify
                    (credentialed busy_client) eq_refl)
             (abc123 None)); [reflexivity | discriminate].
Defined.
